(** * A shallow embedding of pesummary's metafile reading and writing

    The development models the parts of pesummary that build, serialise and
    read back the aggregate metafile:
    - [pesummary/core/file/meta_file.py]: [_MetaFile._make_dictionary],
      [PESummaryJsonEncoder], [_MetaFile.save_to_json],
      [_MetaFile._create_softlinks], [create_hdf5_dataset] and
      [recursively_save_dictionary_to_hdf5_file];
    - [pesummary/core/file/formats/pesummary.py]:
      [PESummary._grab_data_from_dictionary];
    - [pesummary/gw/file/meta_file.py]: [GWMetaFile._make_dictionary] and its
      helpers;
    - [pesummary/core/file/read.py]: the format predicates, [_read] and [read];
    - [pesummary/gw/file/formats/lalinference.py]:
      [LALInference._grab_data_from_lalinference_file].

    Python values are modelled by the inductive type [pyval]; exceptions by
    [exn]; fallible code returns a [result]. *)

From Stdlib Require Import String Ascii List ZArith Bool Permutation Lia.
Import ListNotations.

Set Warnings "-register-all".

Open Scope string_scope.
Open Scope Z_scope.

(* ------------------------------------------------------------------ *)
(** ** Python values *)

(** A finite double as Python's [repr] prints it: [mant * 10 ^ exp10]
    with the shortest mantissa; [repr] then reads back to the same double,
    so the JSON codec is exact on it. *)
Inductive flt : Type :=
| FNum (mant : Z) (exp10 : Z)
| FNaN
| FInf (neg : bool).

(** The Python objects met by the metafile code.  Numpy's [float64] is a
    subclass of [float] and is represented by [PFloat]. *)
Inductive pyval : Type :=
| PNone
| PBool (b : bool)                     (* builtin bool *)
| PInt (z : Z)
| PFloat (f : flt)
| PStr (s : string)
| PBytes (s : string)
| PList (xs : list pyval)
| PTuple (xs : list pyval)
| PDict (kvs : list (string * pyval))  (* a dict with string keys, in order *)
| PNdArray (xs : list pyval)           (* numpy.ndarray; xs its elements *)
| PNpBool (b : bool)                   (* numpy.bool_ *)
| PNpInt (z : Z)                       (* numpy integer *)
| PFunc (name : string)                (* a function *)
| PClass (name : string)               (* a class *)
| PObj (tyname : string).              (* any other object: set, module, ... *)

(** Python exceptions. *)
Inductive exn : Type :=
| TypeError (msg : string)
| ValueError (msg : string)
| KeyError (key : string)
| IndexError
| AttributeError (msg : string)
| JSONDecodeError
| OSError
| ImportError (modname : string)
| FileNotFoundError (path : string)
| RecursionError.

Inductive result (A : Type) : Type :=
| Ok (a : A)
| Err (e : exn).
Arguments Ok {A} a.
Arguments Err {A} e.

Definition bind {A B} (r : result A) (k : A -> result B) : result B :=
  match r with
  | Ok a => k a
  | Err e => Err e
  end.

Notation "'let*' x := c 'in' k" := (bind c (fun x => k))
  (at level 200, x name, c at level 100, k at level 200).

(** [map] over a list with a fallible function, stopping at the first
    exception, as a Python list comprehension does. *)
Fixpoint mapM {A B} (f : A -> result B) (l : list A) : result (list B) :=
  match l with
  | [] => Ok []
  | x :: xs => let* y := f x in let* ys := mapM f xs in Ok (y :: ys)
  end.

(* ------------------------------------------------------------------ *)
(** ** Strings: decimal digits, [repr] and [str] *)

Fixpoint zeros (n : nat) : string :=
  match n with
  | O => ""
  | S k => String "0" (zeros k)
  end.

Fixpoint nat_digits (fuel : nat) (n : Z) (acc : string) : string :=
  match fuel with
  | O => acc
  | S f =>
      let acc' := String (ascii_of_nat (48 + Z.to_nat (n mod 10))) acc in
      if n / 10 =? 0 then acc' else nat_digits f (n / 10) acc'
  end.

(** Decimal digits of a non-negative integer. *)
Definition z_digits (n : Z) : string :=
  nat_digits (S (Z.to_nat (Z.log2 n))) n "".

(** [str] of a Python int. *)
Definition z_str (z : Z) : string :=
  if z <? 0 then "-" ++ z_digits (- z) else z_digits z.

(** [float.__repr__]: fixed notation when the decimal exponent lies in
    [-4, 16), scientific notation otherwise. *)
Definition flt_repr (f : flt) : string :=
  match f with
  | FNaN => "nan"
  | FInf true => "-inf"
  | FInf false => "inf"
  | FNum m e =>
      let sign := if m <? 0 then "-" else "" in
      let d := z_digits (Z.abs m) in
      let n := Z.of_nat (String.length d) in
      let x := n - 1 + e in
      if (-4 <=? x) && (x <? 16) then
        if 0 <=? e then sign ++ d ++ zeros (Z.to_nat e) ++ ".0"
        else if 0 <=? x then
          sign ++ substring 0 (Z.to_nat (x + 1)) d ++ "."
               ++ substring (Z.to_nat (x + 1)) (String.length d) d
        else sign ++ "0." ++ zeros (Z.to_nat (- x - 1)) ++ d
      else
        let ed := z_digits (Z.abs x) in
        sign ++ substring 0 1 d
             ++ (if 1 <? n then "." ++ substring 1 (String.length d) d else "")
             ++ "e" ++ (if x <? 0 then "-" else "+")
             ++ (if String.length ed =? 1 then "0" ++ ed else ed)%nat
  end.

Definition squote : ascii := "039".
Definition dquote : ascii := "034".
Definition backslash : ascii := "092".

Fixpoint has_char (c : ascii) (s : string) : bool :=
  match s with
  | EmptyString => false
  | String c' s' => Ascii.eqb c c' || has_char c s'
  end.

(** Escaping of [repr] for a string quoted with [q]: the quote, the
    backslash and the common control characters. *)
Fixpoint repr_escape (q : ascii) (s : string) : string :=
  match s with
  | EmptyString => EmptyString
  | String c s' =>
      let rest := repr_escape q s' in
      if Ascii.eqb c backslash then String backslash (String backslash rest)
      else if Ascii.eqb c q then String backslash (String c rest)
      else if Ascii.eqb c "010" then String backslash (String "n" rest)
      else if Ascii.eqb c "013" then String backslash (String "r" rest)
      else if Ascii.eqb c "009" then String backslash (String "t" rest)
      else String c rest
  end.

(** [str.__repr__]: single quotes unless the string holds a single quote
    and no double quote. *)
Definition str_repr (s : string) : string :=
  if has_char squote s && negb (has_char dquote s)
  then String dquote (repr_escape dquote s ++ String dquote EmptyString)
  else String squote (repr_escape squote s ++ String squote EmptyString).

Fixpoint join (sep : string) (l : list string) : string :=
  match l with
  | [] => ""
  | [x] => x
  | x :: xs => x ++ sep ++ join sep xs
  end.

(** [repr] of a value as it appears inside a container (numpy 1.x prints
    its scalars like the builtin ones). *)
Fixpoint py_repr (v : pyval) : string :=
  match v with
  | PNone => "None"
  | PBool b | PNpBool b => if b then "True" else "False"
  | PInt z | PNpInt z => z_str z
  | PFloat f => flt_repr f
  | PStr s => str_repr s
  | PBytes s => "b" ++ str_repr s
  | PList xs => "[" ++ join ", " (map py_repr xs) ++ "]"
  | PTuple [x] => "(" ++ py_repr x ++ ",)"
  | PTuple xs => "(" ++ join ", " (map py_repr xs) ++ ")"
  | PDict kvs =>
      "{" ++ join ", " (map (fun kv => str_repr (fst kv) ++ ": " ++ py_repr (snd kv)) kvs)
          ++ "}"
  | PNdArray xs => "array([" ++ join ", " (map py_repr xs) ++ "])"
  | PFunc n => "<function " ++ n ++ ">"
  | PClass n => "<class '" ++ n ++ "'>"
  | PObj n => "<" ++ n ++ " object>"
  end.

(** [str]: as [repr] except for strings, and numpy arrays, which print
    their elements separated by blanks. *)
Definition py_str (v : pyval) : string :=
  match v with
  | PStr s => s
  | PNdArray xs => "[" ++ join " " (map py_repr xs) ++ "]"
  | _ => py_repr v
  end.

(* ------------------------------------------------------------------ *)
(** ** Equality, hashing and truth of Python values *)

(** [m1 * 10^e1 = m2 * 10^e2]. *)
Definition dec_eqb (m1 e1 m2 e2 : Z) : bool :=
  let e := Z.min e1 e2 in
  m1 * 10 ^ (e1 - e) =? m2 * 10 ^ (e2 - e).

(** The numeric value of a number-like object ([bool] is a subclass of
    [int]), as a decimal; [None] for NaN, infinities and non-numbers. *)
Definition py_num (v : pyval) : option (Z * Z) :=
  match v with
  | PBool b | PNpBool b => Some (if b then 1 else 0, 0)
  | PInt z | PNpInt z => Some (z, 0)
  | PFloat (FNum m e) => Some (m, e)
  | _ => None
  end.

(** Python's [==] on hashable values, the comparison a dict lookup makes.
    Numbers compare by value across [bool], [int] and [float]; a NaN equals
    nothing. *)
Fixpoint py_eq (a b : pyval) : bool :=
  match a, b with
  | PNone, PNone => true
  | PStr s, PStr t => String.eqb s t
  | PBytes s, PBytes t => String.eqb s t
  | PTuple xs, PTuple ys =>
      (fix all2 (xs ys : list pyval) : bool :=
         match xs, ys with
         | [], [] => true
         | x :: xs', y :: ys' => py_eq x y && all2 xs' ys'
         | _, _ => false
         end) xs ys
  | PFunc s, PFunc t => String.eqb s t
  | PClass s, PClass t => String.eqb s t
  | PFloat (FInf n1), PFloat (FInf n2) => Bool.eqb n1 n2
  | _, _ =>
      match py_num a, py_num b with
      | Some (m1, e1), Some (m2, e2) => dec_eqb m1 e1 m2 e2
      | _, _ => false
      end
  end.

(** [hash(v)] succeeds: lists, dicts and arrays are unhashable. *)
Fixpoint hashable (v : pyval) : bool :=
  match v with
  | PList _ | PDict _ | PNdArray _ => false
  | PTuple xs => forallb hashable xs
  | _ => true
  end.

(** [bool(v)]; an array of more than one element raises [ValueError]. *)
Definition py_truthy (v : pyval) : result bool :=
  match v with
  | PNone => Ok false
  | PBool b | PNpBool b => Ok b
  | PInt z | PNpInt z => Ok (negb (z =? 0))
  | PFloat (FNum m _) => Ok (negb (m =? 0))
  | PFloat _ => Ok true
  | PStr s | PBytes s => Ok (negb (String.eqb s ""))
  | PList xs | PTuple xs => Ok (match xs with [] => false | _ => true end)
  | PDict kvs => Ok (match kvs with [] => false | _ => true end)
  | PNdArray [] => Ok false
  | PNdArray [x] =>
      match x with
      | PBool b | PNpBool b => Ok b
      | PInt z | PNpInt z => Ok (negb (z =? 0))
      | PFloat (FNum m _) => Ok (negb (m =? 0))
      | _ => Ok true
      end
  | PNdArray _ =>
      Err (ValueError "The truth value of an array with more than one element is ambiguous")
  | PFunc _ | PClass _ | PObj _ => Ok true
  end.

(* ------------------------------------------------------------------ *)
(** ** Dicts with string keys *)

Fixpoint dict_get {A} (k : string) (kvs : list (string * A)) : option A :=
  match kvs with
  | [] => None
  | (k', v) :: kvs' => if String.eqb k k' then Some v else dict_get k kvs'
  end.

(** [d[k] = v]: an existing key keeps its position, a new key goes last. *)
Fixpoint dict_set {A} (k : string) (v : A) (kvs : list (string * A))
  : list (string * A) :=
  match kvs with
  | [] => [(k, v)]
  | (k', v') :: kvs' =>
      if String.eqb k k' then (k', v) :: kvs' else (k', v') :: dict_set k v kvs'
  end.

Definition dict_has {A} (k : string) (kvs : list (string * A)) : bool :=
  match dict_get k kvs with Some _ => true | None => false end.

(** [d[k]], raising [KeyError]. *)
Definition getitem {A} (kvs : list (string * A)) (k : string) : result A :=
  match dict_get k kvs with
  | Some v => Ok v
  | None => Err (KeyError k)
  end.

(** [l[i]] for [0 <= i], raising [IndexError]. *)
Definition nth_err {A} (l : list A) (i : nat) : result A :=
  match nth_error l i with
  | Some v => Ok v
  | None => Err IndexError
  end.

(** [d[k]] on a value that must be a dict. *)
Definition py_getitem (d : pyval) (k : string) : result pyval :=
  match d with
  | PDict kvs => getitem kvs k
  | _ => Err (TypeError "object is not subscriptable by a string")
  end.

(** [d.keys()] on a value that must be a dict. *)
Definition py_keys (d : pyval) : result (list string) :=
  match d with
  | PDict kvs => Ok (map fst kvs)
  | _ => Err (AttributeError "object has no attribute 'keys'")
  end.

Fixpoint str_in (s : string) (l : list string) : bool :=
  match l with
  | [] => false
  | x :: xs => String.eqb s x || str_in s xs
  end.

(* ------------------------------------------------------------------ *)
(** ** The JSON codec: [json.dump(..., sort_keys=True,
       cls=PESummaryJsonEncoder)] and [json.load] *)

(** A JSON document as the [json] module writes and reads it. *)
Inductive json : Type :=
| JNull
| JBool (b : bool)
| JInt (z : Z)
| JFloat (f : flt)
| JStr (s : string)
| JArr (xs : list json)
| JObj (kvs : list (string * json)).

(** [ndarray.tolist()]: numpy scalars become builtin ones. *)
Fixpoint ndarray_tolist (v : pyval) : pyval :=
  match v with
  | PNdArray xs => PList (map ndarray_tolist xs)
  | PNpInt z => PInt z
  | PNpBool b => PBool b
  | _ => v
  end.

(** [PESummaryJsonEncoder.default], called by the encoder on every object
    it does not serialise natively.  [np.bool] is taken to exist (numpy
    before 1.24, or 2.x), so a numpy bool reaches its branch. *)
Definition pesummary_default (o : pyval) : result pyval :=
  match o with
  | PNdArray xs => Ok (PList (map ndarray_tolist xs))         (* obj.tolist() *)
  | PFunc _ => Ok (PStr (py_str o))                            (* str(obj) *)
  | PNpInt z => Ok (PInt z)                                    (* int(obj) *)
  | PNpBool b => Ok (PStr (if b then "True" else "False"))     (* str(obj) *)
  | PBool b => Ok (PStr (if b then "True" else "False"))       (* str(obj) *)
  | PClass _ => Ok (PStr (py_str o))                           (* str(obj) *)
  | _ => Err (TypeError "Object is not JSON serializable")
  end.

(** [sorted(dct.items())] for string keys: ordered by code point. *)
Fixpoint insert_item {A} (kv : string * A) (l : list (string * A))
  : list (string * A) :=
  match l with
  | [] => [kv]
  | kv' :: l' =>
      if String.leb (fst kv) (fst kv') then kv :: l else kv' :: insert_item kv l'
  end.

Definition sort_items {A} (l : list (string * A)) : list (string * A) :=
  fold_right insert_item [] l.

(** The encoder's [_iterencode] at the level of the document: builtin
    [str], [None], [bool], [int], [float], [list], [tuple] and [dict] are
    native, anything else goes through [default] first.  [fuel] bounds the
    nesting depth (Python's recursion limit). *)
Fixpoint to_json (fuel : nat) (o : pyval) : result json :=
  match fuel with
  | O => Err RecursionError
  | S f =>
      match o with
      | PStr s => Ok (JStr s)
      | PNone => Ok JNull
      | PBool b => Ok (JBool b)
      | PInt z => Ok (JInt z)
      | PFloat x => Ok (JFloat x)
      | PList xs | PTuple xs =>
          let* js := mapM (to_json f) xs in Ok (JArr js)
      | PDict kvs =>
          let* js := mapM (fun kv => let* j := to_json f (snd kv) in Ok (fst kv, j))
                          (sort_items kvs) in
          Ok (JObj js)
      | _ => let* o' := pesummary_default o in to_json f o'
      end
  end.

Definition recursion_limit : nat := 1000.

Definition json_encode (o : pyval) : result json := to_json recursion_limit o.

(** [json.load] of the written text: objects become dicts in document
    order, [NaN] and [Infinity] become floats. *)
Fixpoint of_json (j : json) : pyval :=
  match j with
  | JNull => PNone
  | JBool b => PBool b
  | JInt z => PInt z
  | JFloat x => PFloat x
  | JStr s => PStr s
  | JArr xs => PList (map of_json xs)
  | JObj kvs => PDict (map (fun kv => (fst kv, of_json (snd kv))) kvs)
  end.

(** Writing [o] as JSON and loading it back. *)
Definition json_roundtrip (o : pyval) : result pyval :=
  let* j := json_encode o in Ok (of_json j).

(* ------------------------------------------------------------------ *)
(** ** The JSON text, chunk by chunk, with [indent=4] *)










(** A file system: the contents of each path. *)
Definition filesystem := list (string * string).


(* ------------------------------------------------------------------ *)
(** ** [_MetaFile._make_dictionary] (core) *)

Module MetaFile.

(** The package's own version, [pesummary.__version__]. *)
Definition __version__ : string := "0.3.0".

(** The INI files the run can open: path, then sections of [key = value]
    lines. *)
Definition ini_files := list (string * list (string * list (string * string))).

(** [_MetaFile._grab_config_data_from_data_file]: the sections of the INI
    file as a dict of dicts of strings.  The decorator [open_config] (in
    [pesummary.utils.decorators], not in the sources) parses the file with
    [configparser]; a file it cannot read gives no sections and an empty
    dict. *)
Definition _grab_config_data_from_data_file (ini : ini_files) (file : pyval) : pyval :=
  match file with
  | PStr path =>
      match dict_get path ini with
      | Some sections =>
          PDict (map (fun sec => (fst sec,
                                  PDict (map (fun kv => (fst kv, PStr (snd kv))) (snd sec))))
                     sections)
      | None => PDict []
      end
  | _ => PDict []
  end.

(** The arguments of [_MetaFile] that [_make_dictionary] reads. *)
Record inputs := {
  samples : list (string * list (string * list flt));  (* label -> parameter -> column *)
  labels : list string;
  config : list pyval;                      (* per index: None, a dict or a path *)
  injection_data : list (string * list (string * pyval));
  file_versions : list (string * pyval);
  file_kwargs : list (string * pyval);
  priors : list (string * list (string * pyval));      (* key -> label -> value *)
  package_information : list (string * pyval)
}.

(** [np.array(columns).T.tolist()]: the row-major matrix of equally long
    columns; ragged columns make numpy raise. *)
Definition transpose (cols : list (list flt)) : result (list (list flt)) :=
  match cols with
  | [] => Ok []
  | c :: _ =>
      if forallb (fun c' => Nat.eqb (length c') (length c)) cols
      then Ok (map (fun i => map (fun col => nth i col (FNum 0 0)) cols)
                   (seq 0 (length c)))
      else Err (ValueError "setting an array element with a sequence")
  end.

Definition rows_value (rows : list (list flt)) : pyval :=
  PList (map (fun r => PList (map PFloat r)) rows).

(** [dictionary[label][key] = v]. *)
Definition set_field (d : list (string * pyval)) (label key : string) (v : pyval)
  : result (list (string * pyval)) :=
  let* node := getitem d label in
  match node with
  | PDict kvs => Ok (dict_set label (PDict (dict_set key v kvs)) d)
  | _ => Err (TypeError "object does not support item assignment")
  end.

(** [dictionary[label][key]], a dict. *)
Definition get_field (d : list (string * pyval)) (label key : string)
  : result (list (string * pyval)) :=
  let* node := getitem d label in
  let* v := py_getitem node key in
  match v with
  | PDict kvs => Ok kvs
  | _ => Err (TypeError "object does not support item assignment")
  end.

Definition empty_label_node : pyval :=
  PDict [("posterior_samples", PDict []); ("injection_data", PDict []);
         ("version", PDict []); ("meta_data", PDict []);
         ("priors", PDict []); ("config_file", PDict [])].

(** The body of the loop [for num, label in enumerate(self.labels)]. *)
Definition add_label (inp : inputs) (ini : ini_files) (num : nat) (label : string)
  (d : list (string * pyval)) : result (list (string * pyval)) :=
  let* cols := getitem (samples inp) label in
  let parameters := map fst cols in
  let* rows := transpose (map snd cols) in
  let* d := set_field d label "posterior_samples"
              (PDict [("parameter_names", PList (map PStr parameters));
                      ("samples", rows_value rows)]) in
  let* inj := getitem (injection_data inp) label in
  let* injv := mapM (getitem inj) parameters in
  let* d := set_field d label "injection_data"
              (PDict [("injection_values", PList injv)]) in
  let* ver := getitem (file_versions inp) label in
  let* d := set_field d label "version" (PList [ver]) in
  let* kw := getitem (file_kwargs inp) label in
  let* d := set_field d label "meta_data" kw in
  let* cfg := nth_err (config inp) num in
  let* d := match cfg with
            | PNone => Ok d
            | PDict _ => set_field d label "config_file" cfg
            | _ => set_field d label "config_file"
                     (_grab_config_data_from_data_file ini cfg)
            end in
  (fix add_priors (keys : list (string * list (string * pyval)))
       (d : list (string * pyval)) : result (list (string * pyval)) :=
     match keys with
     | [] => Ok d
     | (key, per_label) :: keys' =>
         match dict_get label per_label with
         | Some p =>
             let* pr := get_field d label "priors" in
             let* d := set_field d label "priors" (PDict (dict_set key p pr)) in
             add_priors keys' d
         | None => add_priors keys' d
         end
     end) (priors inp) d.

Fixpoint add_labels (inp : inputs) (ini : ini_files) (num : nat) (ls : list string)
  (d : list (string * pyval)) : result (list (string * pyval)) :=
  match ls with
  | [] => Ok d
  | l :: ls' => let* d := add_label inp ini num l d in add_labels inp ini (S num) ls' d
  end.

(** [_MetaFile._make_dictionary]: one node per label with all six
    sub-nodes, then the aggregate's [version] node, then the loop. *)
Definition _make_dictionary (inp : inputs) (ini : ini_files) : result pyval :=
  let d0 := fold_left (fun d l => dict_set l empty_label_node d) (labels inp) [] in
  let d1 := dict_set "version"
              (PDict (dict_set "pesummary" (PList [PStr __version__])
                               (package_information inp))) d0 in
  let* d := add_labels inp ini 0 (labels inp) d1 in
  Ok (PDict d).

End MetaFile.

(* ------------------------------------------------------------------ *)
(** ** [PESummary._grab_data_from_dictionary] (core, current format) *)

Module PESummary.

(** What the reader returns, one list entry (or dict entry) per label. *)
Record grabbed := {
  g_parameters : list (list pyval);
  g_samples : list (list pyval);
  g_injection : list (list (pyval * pyval));
  g_version : list pyval;
  g_kwargs : list pyval;
  g_weights : list (string * option (list pyval));
  g_labels : list string;
  g_config : list (string * pyval);
  g_prior : list (string * list (string * pyval))
}.

(** Modelled from the spec: [Read.load_recursively] (in
    [pesummary/core/file/formats/base_read.py], not in the sources) yields
    the part of the loaded aggregate stored under the label. *)
Definition load_recursively (label : string) (dictionary : pyval) : result pyval :=
  py_getitem dictionary label.

(** Iterating over a value: [list(v)]. *)
Definition py_iter (v : pyval) : result (list pyval) :=
  match v with
  | PList xs | PTuple xs | PNdArray xs => Ok xs
  | PDict kvs => Ok (map (fun kv => PStr (fst kv)) kvs)
  | _ => Err (TypeError "object is not iterable")
  end.

(** [v.copy()] of the list of parameter names or injection values. *)
Definition list_copy (v : pyval) : result (list pyval) :=
  match v with
  | PList xs | PNdArray xs => Ok xs
  | _ => Err (AttributeError "object has no attribute 'copy'")
  end.

Definition lower_ascii (c : ascii) : ascii :=
  let n := nat_of_ascii c in
  if Nat.leb 65 n && Nat.leb n 90 then ascii_of_nat (n + 32) else c.

Fixpoint lower (s : string) : string :=
  match s with
  | EmptyString => EmptyString
  | String c s' => String (lower_ascii c) (lower s')
  end.

(** The local [parse_injection_value]. *)
Definition parse_injection_value (v : pyval) : result pyval :=
  let* v := match v with
            | PList xs | PNdArray xs => nth_err xs 0
            | _ => Ok v
            end in
  let v := match v with PBytes s => PStr s | _ => v end in
  Ok (match v with
      | PStr s =>
          if String.eqb (lower s) "nan" then PFloat FNaN
          else if String.eqb (lower s) "none" then PNone
          else v
      | _ => v
      end).

(** A dict keyed by Python values, [d[k] = v]. *)
Fixpoint pdict_set (k v : pyval) (d : list (pyval * pyval)) : list (pyval * pyval) :=
  match d with
  | [] => [(k, v)]
  | (k', v') :: d' => if py_eq k k' then (k', v) :: d' else (k', v') :: pdict_set k v d'
  end.

(** [x in l] and [l.index(x)], by [==]. *)
Fixpoint py_index (x : pyval) (l : list pyval) : option nat :=
  match l with
  | [] => None
  | y :: l' => if py_eq x y then Some O else option_map S (py_index x l')
  end.

(** Decoding byte-string parameter names: only a [bytes] first name
    triggers it, and [str] has no [decode]. *)
Definition decode_parameters (parameters : list pyval) : result (list pyval) :=
  let* p0 := nth_err parameters 0 in
  match p0 with
  | PBytes _ =>
      mapM (fun p => match p with
                     | PBytes s => Ok (PStr s)
                     | _ => Err (AttributeError "'str' object has no attribute 'decode'")
                     end) parameters
  | _ => Ok parameters
  end.

(** The parameters and sample rows of one label. *)
Definition grab_posterior (data : pyval) : result (list pyval * list pyval) :=
  let* keys := py_keys data in
  if str_in "mcmc_chains" keys then
    (* [dataset[chains[0]].dtype.names]: a loaded JSON list has no dtype *)
    let* dataset := py_getitem data "mcmc_chains" in
    let* chains := py_keys dataset in
    let* _ := nth_err chains 0 in
    Err (AttributeError "'list' object has no attribute 'dtype'")
  else
    let* posterior_samples := py_getitem data "posterior_samples" in
    match posterior_samples with
    | PNdArray _ =>
        (* a plain array: [dtype.names] is [None] *)
        Err (TypeError "'NoneType' object is not iterable")
    | _ =>
        let* pn := py_getitem posterior_samples "parameter_names" in
        let* parameters := list_copy pn in
        let* sv := py_getitem posterior_samples "samples" in
        let* samples := py_iter sv in
        let* parameters := decode_parameters parameters in
        Ok (parameters, samples)
    end.

(** [Array([sample[ind] for sample in samples])]. *)
Definition weights_column (ind : nat) (samples : list pyval) : result (list pyval) :=
  mapM (fun sample => let* row := py_iter sample in nth_err row ind) samples.

(** What the loop stores for one label. *)
Record label_data := {
  ld_parameters : list pyval;
  ld_samples : list pyval;
  ld_injection : option (list (pyval * pyval));
  ld_config : pyval;
  ld_kwargs : pyval;
  ld_weights : option (list pyval);
  ld_version : pyval;
  ld_priors : pyval
}.

Definition grab_label (dictionary : pyval) (label : string) : result label_data :=
  let* data := load_recursively label dictionary in
  let* ps := grab_posterior data in
  let (parameters, samples) := ps in
  let* keys := py_keys data in
  let* inj :=
    if str_in "injection_data" keys then
      let* idata := py_getitem data "injection_data" in
      let* iv := py_getitem idata "injection_values" in
      let* inj := list_copy iv in
      let* vals := mapM parse_injection_value inj in
      Ok (Some (fold_left (fun d pv => pdict_set (fst pv) (snd pv) d)
                          (combine parameters vals) []))
    else Ok None in
  let* config := if str_in "config_file" keys then py_getitem data "config_file"
                 else Ok PNone in
  let* kwargs := if str_in "meta_data" keys then py_getitem data "meta_data"
                 else Ok (PDict [("sampler", PDict []); ("meta_data", PDict [])]) in
  let* weights :=
    match py_index (PStr "weights") parameters with
    | Some ind => let* w := weights_column ind samples in Ok (Some w)
    | None =>
        match py_index (PBytes "weights") parameters with
        | Some ind => let* w := weights_column ind samples in Ok (Some w)
        | None => Ok None
        end
    end in
  let* version := if str_in "version" keys then py_getitem data "version"
                  else Ok (PStr "No version information found") in
  let* priors := if str_in "priors" keys then py_getitem data "priors"
                 else Ok (PDict []) in
  Ok {| ld_parameters := parameters; ld_samples := samples; ld_injection := inj;
        ld_config := config; ld_kwargs := kwargs; ld_weights := weights;
        ld_version := version; ld_priors := priors |}.

(** [labels.remove("version")]: the first occurrence. *)
Fixpoint remove_first (x : string) (l : list string) : list string :=
  match l with
  | [] => []
  | y :: l' => if String.eqb x y then l' else y :: remove_first x l'
  end.

(** The inverted priors: parameter, then label. *)
Definition reverse_priors (per_label : list (string * pyval))
  : result (list (string * list (string * pyval))) :=
  fold_left
    (fun acc lp =>
       let* acc := acc in
       match snd lp with
       | PDict items =>
           Ok (fold_left
                 (fun acc ki =>
                    match dict_get (fst ki) acc with
                    | Some m => dict_set (fst ki) (dict_set (fst lp) (snd ki) m) acc
                    | None => dict_set (fst ki) [(fst lp, snd ki)] acc
                    end) items acc)
       | _ => Err (AttributeError "object has no attribute 'items'")
       end)
    per_label (Ok []).

(** [PESummary._grab_data_from_dictionary]. *)
Definition _grab_data_from_dictionary (dictionary : pyval) : result grabbed :=
  let* keys := py_keys dictionary in
  let labels := if str_in "version" keys then remove_first "version" keys else keys in
  let* per := mapM (grab_label dictionary) labels in
  let* prior := reverse_priors (combine labels (map ld_priors per)) in
  Ok {| g_parameters := map ld_parameters per;
        g_samples := map ld_samples per;
        g_injection := flat_map (fun ld => match ld_injection ld with
                                           | Some i => [i] | None => [] end) per;
        g_version := map ld_version per;
        g_kwargs := map ld_kwargs per;
        g_weights := combine labels (map ld_weights per);
        g_labels := labels;
        g_config := combine labels (map ld_config per);
        g_prior := prior |}.

End PESummary.

(* ------------------------------------------------------------------ *)
(** ** [LALInference._grab_data_from_lalinference_file] *)

Module LALInference.




Section Derived.

(** The sample values (float64) and the numpy functions applied to them. *)
Variable num : Type.
Variables np_exp np_arccos np_sign np_abs : num -> num.




End Derived.

End LALInference.

(* ------------------------------------------------------------------ *)
(** ** Format detection: [pesummary/core/file/read.py] *)

Module Read.

(** Modelled from the spec: [Read.extension_from_path] (in
    [base_read.py], not in the sources) gives the file's extension, the
    text after its last dot. *)
Fixpoint after_last_dot (s : string) : option string :=
  match s with
  | EmptyString => None
  | String c s' =>
      match after_last_dot s' with
      | Some x => Some x
      | None => if Ascii.eqb c "." then Some s' else None
      end
  end.

Definition extension_from_path (path : string) : string :=
  match after_last_dot path with
  | Some x => x
  | None => path
  end.

(** [needle in hay] for the [version] entry of a loaded file. *)
Definition py_contains (needle : string) (hay : pyval) : result bool :=
  match hay with
  | PStr s => Ok (match index 0 needle s with Some _ => true | None => false end)
  | PList xs | PTuple xs | PNdArray xs =>
      Ok (existsb (py_eq (PStr needle)) xs)
  | PDict kvs => Ok (dict_has needle kvs)
  | PBytes _ => Err (TypeError "a bytes-like object is required, not 'str'")
  | _ => Err (TypeError "argument is not iterable")
  end.

Section Detection.

(** [json.load] of a file's text ([None]: not valid JSON), [h5py.File] and
    [deepdish.io.load] of its bytes ([None]: not an HDF5 file), whether
    [deepdish] can be imported, and the loaders, which are not in the
    sources. *)
Variable json_parse : string -> option pyval.
Variable hdf5_parse : string -> option pyval.
Variable deepdish_installed : bool.
Variable R : Type.

Definition open_file (fs : filesystem) (path : string) : result string :=
  match dict_get path fs with
  | Some bytes => Ok bytes
  | None => Err (FileNotFoundError path)
  end.

Definition json_load (fs : filesystem) (path : string) : result pyval :=
  let* text := open_file fs path in
  match json_parse text with
  | Some d => Ok d
  | None => Err JSONDecodeError
  end.

Definition h5py_File (fs : filesystem) (path : string) : result pyval :=
  let* bytes := open_file fs path in
  match hdf5_parse bytes with
  | Some d => Ok d
  | None => Err OSError
  end.

(** Turning any exception of a [try ... except Exception] block into
    [False]. *)
Definition catch_false (r : result bool) : bool :=
  match r with Ok b => b | Err _ => false end.

Definition is_bilby_hdf5_file (fs : filesystem) (path : string) : result bool :=
  if deepdish_installed then
    Ok (catch_false (let* f := h5py_File fs path in
                     let* v := py_getitem f "version" in
                     py_contains "bilby" v))
  else Err (ImportError "deepdish").

Definition is_bilby_json_file (fs : filesystem) (path : string) : result bool :=
  let* data := json_load fs path in
  Ok (catch_false (let* v := py_getitem data "version" in py_contains "bilby" v)).

Definition _check_pesummary_file_deprecated (f : pyval) : result bool :=
  let* keys := py_keys f in
  if str_in "posterior_samples" keys then
    Ok (catch_false (let* ps := py_getitem f "posterior_samples" in
                     let* _ := py_keys ps in Ok true))
  else Ok false.

Definition _check_pesummary_file (f : pyval) : result bool :=
  let* labels := py_keys f in
  if negb (str_in "version" labels) then Ok false
  else
    Ok (catch_false
          (fold_left (fun acc label =>
                        let* b := acc in
                        if String.eqb label "version" then Ok b
                        else if negb b then Ok false
                        else let* node := py_getitem f label in
                             let* ks := py_keys node in
                             Ok (str_in "posterior_samples" ks))
                     labels (Ok true))).

Definition _is_pesummary_hdf5_file (fs : filesystem) (path : string)
  (check_function : pyval -> result bool) : result bool :=
  let* f := h5py_File fs path in check_function f.

Definition _is_pesummary_json_file (fs : filesystem) (path : string)
  (check_function : pyval -> result bool) : result bool :=
  let* data := json_load fs path in check_function data.

Definition is_pesummary_hdf5_file fs path :=
  _is_pesummary_hdf5_file fs path _check_pesummary_file.
Definition is_pesummary_hdf5_file_deprecated fs path :=
  _is_pesummary_hdf5_file fs path _check_pesummary_file_deprecated.
Definition is_pesummary_json_file fs path :=
  _is_pesummary_json_file fs path _check_pesummary_file.
Definition is_pesummary_json_file_deprecated fs path :=
  _is_pesummary_json_file fs path _check_pesummary_file_deprecated.

(** A [load_options] table: predicates and loaders in insertion order. *)
Definition load_table := list ((string -> result bool) * (string -> result R)).

(** [_read]: the first predicate that holds selects its loader; an
    [ImportError] of the loader falls back to the default at once, any
    other exception moves on to the next predicate; a predicate's own
    exception is not caught. *)
Fixpoint _read (path : string) (load_options : load_table)
  (default : string -> result R) : result R :=
  match load_options with
  | [] => default path
  | (check, load) :: rest =>
      let* b := check path in
      if b then
        match load path with
        | Ok r => Ok r
        | Err (ImportError _) => default path
        | Err _ => _read path rest default
        end
      else _read path rest default
  end.

(** [read]: the table is chosen by the extension. *)
Definition read (path : string) (HDF5_LOAD JSON_LOAD : load_table)
  (DEFAULT : string -> result R) : result R :=
  let extension := extension_from_path path in
  if str_in extension ["hdf5"; "h5"; "hdf"] then _read path HDF5_LOAD DEFAULT
  else if String.eqb extension "json" then _read path JSON_LOAD DEFAULT
  else DEFAULT path.

Variables bilby_load pesummary_load pesummary_deprecated_load : string -> result R.

(** Modelled from the spec: [Default.load_file] (not in the sources)
    "must never raise for any bytes"; it is any total reader [default_load]. *)
Variable default_load : string -> R.

Definition CORE_DEFAULT_LOAD (path : string) : result R := Ok (default_load path).

Definition CORE_HDF5_LOAD (fs : filesystem) : load_table :=
  [(is_bilby_hdf5_file fs, bilby_load);
   (is_pesummary_hdf5_file fs, pesummary_load);
   (is_pesummary_hdf5_file_deprecated fs, pesummary_deprecated_load)].

Definition CORE_JSON_LOAD (fs : filesystem) : load_table :=
  [(is_bilby_json_file fs, bilby_load);
   (is_pesummary_json_file fs, pesummary_load);
   (is_pesummary_json_file_deprecated fs, pesummary_deprecated_load)].

(** [read(path)] with the core tables. *)
Definition core_read (fs : filesystem) (path : string) : result R :=
  read path (CORE_HDF5_LOAD fs) (CORE_JSON_LOAD fs) CORE_DEFAULT_LOAD.

End Detection.

End Read.

(* ------------------------------------------------------------------ *)
(** ** [GWMetaFile._make_dictionary] *)

Module GWMetaFile.

(** The attributes of [GWPostProcessing] that [_make_dictionary] reads,
    with the types their uses require. *)
Record inputs := {
  labels : list string;
  parameters : list pyval;
  samples : list pyval;
  injection_data : list (list (string * pyval));
  file_versions : list pyval;
  psds : pyval;
  psd_frequencies : list pyval;
  psd_strains : list pyval;
  psd_labels : list pyval;
  calibration : pyval;
  calibration_envelopes : list pyval;
  calibration_labels : list pyval;
  config : list pyval;
  approximant : list pyval;
  file_kwargs : list pyval;
  existing : bool
}.

(** What [GWRead(self.existing_meta_file)] supplies for the merge. *)
Record existing_file := {
  e_labels : list string;
  e_parameters : list pyval;
  e_samples : list pyval;
  e_psd : pyval;
  e_calibration : pyval;
  e_config : pyval;
  e_approximant : list pyval;
  e_injection : list pyval;
  e_version : list pyval;
  e_metadata : list pyval
}.

Definition node := list (string * pyval).

(** Modelled from the spec: [_add_label] (of [GWPostProcessing], not in
    the sources) makes sure the top-level node [key] exists and has an
    entry for [label], an empty dict when it had none ("within a created
    node, every record must have an entry"). *)
Definition _add_label (key label : string) (data : node) : node :=
  let kvs := match dict_get key data with Some (PDict kvs) => kvs | _ => [] end in
  let kvs := if dict_has label kvs then kvs else dict_set label (PDict []) kvs in
  dict_set key (PDict kvs) data.

(** [type(calibration) == list and any(i for i in calibration)] or
    [type(calibration) == dict]. *)
Definition calibration_gate (calibration : pyval) : result bool :=
  match calibration with
  | PList xs =>
      fold_left (fun (acc : result bool) x =>
                   let* b := acc in if b then Ok true else py_truthy x)
                xs (Ok false : result bool)
  | PDict _ => Ok true
  | _ => Ok false
  end.

(** One pass of the loop of [_make_dictionary_structure], for label [i]. *)
Definition structure_step (psd approx calibration config : pyval) (data : node)
  (i : string) : result node :=
  let data := _add_label "posterior_samples" i data in
  let data := _add_label "injection_data" i data in
  let data := _add_label "version" i data in
  let data := _add_label "meta_data" i data in
  let* p := py_truthy psd in
  let data := if p then _add_label "psds" i data else data in
  let* c := py_truthy calibration in
  let* g := if c then calibration_gate calibration else Ok false in
  let data := if g then _add_label "calibration_envelope" i data else data in
  let* cf := py_truthy config in
  let data := if cf then _add_label "config_file" i data else data in
  let* a := py_truthy approx in
  let data := if a then _add_label "approximant" i data else data in
  Ok data.

(** [_make_dictionary_structure]. *)
Definition _make_dictionary_structure (label : list string) (psd : pyval)
  (approx : pyval) (calibration : pyval) (config : pyval) (data : node)
  : result node :=
  fold_left
    (fun acc i => let* data := acc in structure_step psd approx calibration config data i)
    label (Ok data).

(** [data[key][label] = v]. *)
Definition set2 (key label : string) (v : pyval) (data : node) : result node :=
  let* n := getitem data key in
  match n with
  | PDict kvs => Ok (dict_set key (PDict (dict_set label v kvs)) data)
  | _ => Err (TypeError "object does not support item assignment")
  end.

(** [for i in d.keys(): data[key][label][i] = d[i]]. *)
Definition merge3 (key label : string) (d : pyval) (data : node) : result node :=
  let* n := getitem data key in
  let* kvs := match n with PDict kvs => Ok kvs
                         | _ => Err (TypeError "not a dict") end in
  let* inner := getitem kvs label in
  let* ikvs := match inner with PDict ikvs => Ok ikvs
                              | _ => Err (TypeError "not a dict") end in
  let* items := match d with PDict items => Ok items
                           | _ => Err (AttributeError "object has no attribute 'keys'") end in
  let ikvs := fold_left (fun acc kv => dict_set (fst kv) (snd kv) acc) items ikvs in
  Ok (dict_set key (PDict (dict_set label (PDict ikvs) kvs)) data).

(** [GWMetaFile.convert_to_list]: array rows become lists; an array
    inside a row is replaced by the row as a list. *)
Definition convert_to_list (samples : pyval) : result pyval :=
  let* rows := PESummary.py_iter samples in
  let rows := map (fun i =>
                     let row := match i with PNdArray xs => PList xs | _ => i end in
                     match row, i with
                     | PList xs, PNdArray orig =>
                         PList (map (fun x => match x with
                                              | PNdArray _ => PList orig
                                              | _ => x end) xs)
                     | _, _ => row
                     end) rows in
  Ok (PList rows).

(** [GWMetaFile._add_data]. *)
Definition _add_data (label : string) (parameters samples injection : pyval)
  (version approximant psd calibration config pesummary_version meta_data : pyval)
  (data : node) : result node :=
  let* ps := PESummary.py_iter parameters in
  let* ss := convert_to_list samples in
  let* data := set2 "posterior_samples" label
                 (PDict [("parameter_names", PList ps); ("samples", ss)]) data in
  let* inj := PESummary.py_iter injection in
  let* data := set2 "injection_data" label (PDict [("injection_values", PList inj)]) data in
  let* data := set2 "version" label (PList [version]) data in
  let* data := set2 "meta_data" label meta_data data in
  let* b := py_truthy psd in
  let* data := if b then merge3 "psds" label psd data else Ok data in
  let* b := py_truthy calibration in
  let* data := if b then merge3 "calibration_envelope" label calibration data else Ok data in
  let* b := py_truthy config in
  let* data := if b then set2 "config_file" label config data else Ok data in
  let* b := py_truthy approximant in
  let* data := if b then set2 "approximant" label approximant data else Ok data in
  let* b := py_truthy pesummary_version in
  if b then set2 "version" "pesummary" (PList [pesummary_version]) data else Ok data.

(** [_combine_psd_frequency_strain]. *)
Definition _combine_psd_frequency_strain (frequencies strains psd_labels : pyval)
  : result pyval :=
  let* fs := PESummary.py_iter frequencies in
  let* ss := PESummary.py_iter strains in
  let* ls := PESummary.py_iter psd_labels in
  let* items := mapM (fun ni =>
                  let* l := nth_err ls (fst ni) in
                  let* s := nth_err ss (fst ni) in
                  let* fl := PESummary.py_iter (snd ni) in
                  let* sl := PESummary.py_iter s in
                  match l with
                  | PStr k => Ok (k, PList (map (fun jk => PList [fst jk; snd jk])
                                                (combine fl sl)))
                  | _ => Err (TypeError "label is not a string")
                  end) (combine (seq 0 (length fs)) fs) in
  Ok (PDict (fold_left (fun acc kv => dict_set (fst kv) (snd kv) acc) items [])).

(** [_combine_calibration_envelopes]: the seven columns of each row. *)
Definition _combine_calibration_envelopes (envelopes calibration_labels : pyval)
  : result pyval :=
  let* es := PESummary.py_iter envelopes in
  let* ls := PESummary.py_iter calibration_labels in
  let* items := mapM (fun ni =>
                  let* l := nth_err ls (fst ni) in
                  let* rows := PESummary.py_iter (snd ni) in
                  let* rows := mapM (fun j =>
                                 let* js := PESummary.py_iter j in
                                 let* cols := mapM (nth_err js) [0; 1; 2; 3; 4; 5; 6]%nat in
                                 Ok (PList cols)) rows in
                  match l with
                  | PStr k => Ok (k, PList rows)
                  | _ => Err (TypeError "label is not a string")
                  end) (combine (seq 0 (length es)) es) in
  Ok (PDict (fold_left (fun acc kv => dict_set (fst kv) (snd kv) acc) items [])).

(** [GWMetaFile._grab_config_data_from_data_file]: [configparser] reads the
    file; a [None] path makes [read] raise inside the [try], giving no
    sections; the result is the dict of sections either way. *)
Definition _grab_config_data_from_data_file (ini : MetaFile.ini_files) (file : pyval)
  : pyval :=
  MetaFile._grab_config_data_from_data_file ini file.

(** [get_version_information()]. *)
Definition pesummary_version : pyval := PStr MetaFile.__version__.

(** The new analyses' loop of [_make_dictionary]. *)
Definition add_new (inp : inputs) (ini : MetaFile.ini_files)
  (existing_label : list string) (num : nat) (i : string) (data : node)
  : result node :=
  if str_in i existing_label then Ok data
  else
    let* params := nth_err (parameters inp) num in
    let* pl := PESummary.py_iter params in
    let* inj_d := nth_err (injection_data inp) num in
    let* injection := mapM (fun p => match p with
                                     | PStr s => getitem inj_d s
                                     | _ => Err (KeyError "parameter")
                                     end) pl in
    let* p := py_truthy (psds inp) in
    let* psd := if p then
                  let* fr := nth_err (psd_frequencies inp) num in
                  let* st := nth_err (psd_strains inp) num in
                  let* pl := nth_err (psd_labels inp) num in
                  _combine_psd_frequency_strain fr st pl
                else Ok PNone in
    let* env := nth_err (calibration_envelopes inp) num in
    let* calibration := match env with
                        | PNone => Ok PNone
                        | _ => let* cl := nth_err (calibration_labels inp) num in
                               _combine_calibration_envelopes env cl
                        end in
    let* config := match config inp with
                   | [] => Ok PNone
                   | cs => if Nat.ltb num (length cs)
                           then let* c := nth_err cs num in
                                Ok (_grab_config_data_from_data_file ini c)
                           else Ok PNone
                   end in
    let approximant := match approximant inp with
                       | [] => repeat PNone (length (samples inp))
                       | ap => ap
                       end in
    let* ap := nth_err approximant num in
    let* s := nth_err (samples inp) num in
    let* v := nth_err (file_versions inp) num in
    let* kw := nth_err (file_kwargs inp) num in
    _add_data i params s (PList injection) v ap psd calibration config
              pesummary_version kw data.

Fixpoint add_new_all (inp : inputs) (ini : MetaFile.ini_files)
  (existing_label : list string) (num : nat) (ls : list string) (data : node)
  : result node :=
  match ls with
  | [] => Ok data
  | i :: ls' =>
      let* data := add_new inp ini existing_label num i data in
      add_new_all inp ini existing_label (S num) ls' data
  end.

(** The existing analyses' loop: each is copied with the whole existing
    [psd], [calibration] and [config]. *)
Fixpoint add_existing_all (ex : existing_file) (num : nat) (ls : list string)
  (data : node) : result node :=
  match ls with
  | [] => Ok data
  | i :: ls' =>
      let* p := nth_err (e_parameters ex) num in
      let* s := nth_err (e_samples ex) num in
      let* inj := nth_err (e_injection ex) num in
      let* v := nth_err (e_version ex) num in
      let* ap := nth_err (e_approximant ex) num in
      let* md := nth_err (e_metadata ex) num in
      let* data := _add_data i p s inj v ap (e_psd ex) (e_calibration ex)
                             (e_config ex) PNone md data in
      add_existing_all ex (S num) ls' data
  end.

(** [GWMetaFile._make_dictionary], from [self.data = {}]; [ex] is read
    only when [self.existing] holds, and [existing_label] stays [[None]]
    otherwise. *)
Definition _make_dictionary (inp : inputs) (ex : existing_file)
  (ini : MetaFile.ini_files) : result node :=
  let* data :=
    if existing inp then
      let* data := _make_dictionary_structure (e_labels ex) (e_psd ex)
                     (PList (e_approximant ex)) (e_calibration ex) (e_config ex) [] in
      add_existing_all ex 0 (e_labels ex) data
    else Ok [] in
  let existing_label := if existing inp then e_labels ex else [] in
  let* data := _make_dictionary_structure (labels inp) (psds inp)
                 (PList (approximant inp)) (calibration inp) (PList (config inp)) data in
  add_new_all inp ini existing_label 0 (labels inp) data.

End GWMetaFile.

(* ------------------------------------------------------------------ *)
(** ** [_MetaFile._create_softlinks] and the HDF5 writer *)

Module Softlinks.

(** [str.split("/")]. *)
Fixpoint split_acc (s cur : string) : list string :=
  match s with
  | EmptyString => [cur]
  | String c s' =>
      if Ascii.eqb c "/" then cur :: split_acc s' ""
      else split_acc s' (cur ++ String c "")
  end.

Definition split_slash (s : string) : list string := split_acc s "".

(** The leaves of a nested dict with their key paths, in order. *)
Fixpoint flat (prefix : list string) (v : pyval) {struct v}
  : list (list string * pyval) :=
  match v with
  | PDict kvs =>
      (fix go (kvs : list (string * pyval)) : list (list string * pyval) :=
         match kvs with
         | [] => []
         | (k, w) :: rest => (flat (prefix ++ [k]) w ++ go rest)%list
         end) kvs
  | _ => [(prefix, v)]
  end.

Definition is_dict (v : pyval) : bool :=
  match v with PDict _ => true | _ => false end.

(** [pandas.io.json.nested_to_record(data, sep='/')] on a dict with
    distinct keys: a leaf of the top level keeps its place while a nested
    dict is popped and its flattened items are appended, so the top-level
    leaves come first and each nested dict follows in order; empty nested
    dicts leave nothing. *)
Definition nested_to_record (data : pyval) : list (string * pyval) :=
  match data with
  | PDict kvs =>
      (map (fun kv => (fst kv, snd kv)) (filter (fun kv => negb (is_dict (snd kv))) kvs)
      ++ map (fun pv => (join "/" (fst pv), snd pv))
             (flat [] (PDict (filter (fun kv => is_dict (snd kv)) kvs))))%list
  | _ => []
  end.

(** [modify_dict(key, dictionary, replace)]: [reduce(getitem,
    key_list[:-1], mod)[key_list[-1]] = replace] on a copy. *)
Fixpoint set_path (p : list string) (x d : pyval) : result pyval :=
  match p with
  | [] => Err IndexError
  | [k] =>
      match d with
      | PDict kvs => Ok (PDict (dict_set k x kvs))
      | _ => Err (TypeError "object does not support item assignment")
      end
  | k :: p' =>
      match d with
      | PDict kvs =>
          let* sub := getitem kvs k in
          let* sub' := set_path p' x sub in
          Ok (PDict (dict_set k sub' kvs))
      | _ => Err (TypeError "object is not subscriptable")
      end
  end.

Definition modify_dict (key : string) (dictionary replace : pyval) : result pyval :=
  set_path (split_slash key) replace dictionary.

(** The key of [rev_dictionary]: the value itself, or [str(value)] when
    hashing it raises [TypeError]. *)
Definition rev_key (v : pyval) : pyval :=
  if hashable v then v else PStr (py_str v).

Definition set_add (x : string) (s : list string) : list string :=
  if str_in x s then s else (s ++ [x])%list.

(** [rev_dictionary.setdefault(key, set()).add(path)]: dict keys compare
    with [==], and [setdefault] keeps the key first stored. *)
Fixpoint group_add (key : pyval) (path : string) (rev : list (pyval * list string))
  : list (pyval * list string) :=
  match rev with
  | [] => [(key, [path])]
  | (k', ps) :: rest =>
      if py_eq key k' then (k', set_add path ps) :: rest
      else (k', ps) :: group_add key path rest
  end.

Definition rev_dictionary (flat_dictionary : list (string * pyval))
  : list (pyval * list string) :=
  fold_left (fun rev kv => group_add (rev_key (snd kv)) (fst kv) rev) flat_dictionary [].

Definition softlink_marker (target : string) : string := "softlink:/" ++ target.

Section Pass.

(** [list(values)]: the iteration order of a Python set of strings depends
    on the string hashes, so it is left open; it lists the set's elements. *)
Variable set_order : list string -> list string.

Definition link_group (ps : list string) (data : pyval) : result pyval :=
  if Nat.ltb 1 (length ps) then
    match set_order ps with
    | [] => Ok data
    | tmp0 :: rest =>
        fold_left (fun acc val => let* d := acc in
                                  modify_dict val d (PStr (softlink_marker tmp0)))
                  rest (Ok data)
    end
  else Ok data.

(** [_MetaFile._create_softlinks]. *)
Definition _create_softlinks (dictionary : pyval) : result pyval :=
  let data := dictionary in
  let rev := rev_dictionary (nested_to_record data) in
  fold_left (fun acc kv => let* d := acc in link_group (snd kv) d) rev (Ok data).

End Pass.

(** The contents [create_hdf5_dataset] gives a dataset. *)
Inductive h5data : Type :=
  | HEmpty
  | HBytesArr (xs : list string)
  | HStack (rows : list pyval)
  | HRecords (xs : list pyval)
  | HNumArr (xs : list pyval)
  | HScalarNaN.

Inductive h5node : Type :=
  | H5Group
  | H5Dataset (d : h5data)
  | H5SoftLink (target : string).

(** An HDF5 file: its objects by path, in creation order. *)
Definition h5file := list (string * h5node).

(** [h5py] creation of [name] under the group [cur]: the group must exist
    and the name must be free. *)
Definition h5_create (cur : list string) (name : string) (n : h5node) (f : h5file)
  : result h5file :=
  let parent_ok := match cur with
                   | [] => true
                   | _ => match dict_get (join "/" cur) f with
                          | Some H5Group => true
                          | _ => false
                          end
                   end in
  if negb parent_ok then Err (KeyError (join "/" cur))
  else
    let p := join "/" (cur ++ [name])%list in
    if dict_has p f then Err (ValueError "Unable to create (name already exists)")
    else Ok (f ++ [(p, n)])%list.

Definition to_S (x : pyval) : string :=
  match x with PBytes s => s | _ => py_str x end.

Definition softlink_tag : string := "softlink:".

(** [value.split("softlink:")[1]]. *)
Definition softlink_target (s : string) : result string :=
  match index 0 softlink_tag s with
  | None => Err IndexError
  | Some i =>
      let rest := substring (i + String.length softlink_tag) (String.length s) s in
      match index 0 softlink_tag rest with
      | None => Ok rest
      | Some j => Ok (substring 0 j rest)
      end
  end.

Definition array_data (key : string) (xs : list pyval) : result h5data :=
  match xs with
  | [] => Ok HEmpty
  | x :: _ =>
      match x with
      | PStr _ | PBytes _ => Ok (HBytesArr (map to_S xs))
      | PList _ | PNdArray _ => Ok (HStack xs)
      | PTuple _ => Ok (HRecords xs)
      | PFloat FNaN => Ok (HBytesArr (repeat "NaN" (length xs)))
      | PFloat _ | PInt _ | PNpInt _ | PBool _ => Ok (HNumArr xs)
      | PNpBool _ =>
          Err (TypeError ("Cannot process " ++ key ++ " from list for hdf5"))
      | _ => Err (TypeError "must be real number")
      end
  end.

(** The object [create_hdf5_dataset] makes for [value]: a soft link for a
    string containing "softlink:" (the [SOFTLINK] flag), a dataset of the
    converted data otherwise. *)
Definition dataset_node (key : string) (value : pyval) : result h5node :=
  match value with
  | PList xs | PNdArray xs =>
      let* d := array_data key xs in Ok (H5Dataset d)
  | PStr s =>
      match index 0 softlink_tag s with
      | Some _ => let* t := softlink_target s in Ok (H5SoftLink t)
      | None => Ok (H5Dataset (HBytesArr [s]))
      end
  | PBytes s => Ok (H5Dataset (HBytesArr [s]))
  | PFloat _ | PInt _ | PNpInt _ | PBool _ => Ok (H5Dataset (HNumArr [value]))
  | PDict [] => Ok (H5Dataset HScalarNaN)
  | PFunc n | PClass n => Ok (H5Dataset (HBytesArr [n]))
  | _ => Err (TypeError ("Cannot process " ++ key ++ " for hdf5"))
  end.

(** [create_hdf5_dataset]. *)
Definition create_hdf5_dataset (key : string) (value : pyval) (f : h5file)
  (current_path : list string) : result h5file :=
  let* n := dataset_node key value in h5_create current_path key n f.

Definition DEFAULT_HDF5_KEYS : list string := ["version"].

(** [_safe_create_hdf5_group(f, key)]: a group at the top of the file. *)
Definition _safe_create_hdf5_group (f : h5file) (key : string) : result h5file :=
  if dict_has key f then Ok f else h5_create [] key H5Group f.

(** [recursively_save_dictionary_to_hdf5_file]. *)
Fixpoint recursively_save (extra_keys : list string) (dictionary : pyval)
  (current_path : list string) (f : h5file) {struct dictionary} : result h5file :=
  match dictionary with
  | PDict kvs =>
      let* f := fold_left (fun acc key => let* f := acc in
                             if dict_has key kvs then _safe_create_hdf5_group f key
                             else Ok f) extra_keys (Ok f) in
      (fix items (kvs : list (string * pyval)) (f : h5file) : result h5file :=
         match kvs with
         | [] => Ok f
         | (k, v) :: rest =>
             let* f := match v with
                       | PDict _ =>
                           let* f := if dict_has (join "/" (current_path ++ [k])%list) f
                                     then Ok f
                                     else h5_create current_path k H5Group f in
                           recursively_save extra_keys v (current_path ++ [k])%list f
                       | _ => create_hdf5_dataset k v f current_path
                       end in
             items rest f
         end) kvs f
  | _ => Err (AttributeError "object has no attribute 'items'")
  end.

(** The file [recursively_save_dictionary_to_hdf5_file] writes into a new
    [h5py.File(meta_file, "w")]. *)
Definition write_hdf5 (data : pyval) (labels : list string) : result h5file :=
  recursively_save (DEFAULT_HDF5_KEYS ++ labels)%list data [] [].





End Softlinks.

(* ------------------------------------------------------------------ *)
(** ** Auxiliary definitions for the statements *)





(** Induction over Python values that enters the elements of containers. *)
Section PyvalInd.

Variable P : pyval -> Prop.

Definition is_container (v : pyval) : bool :=
  match v with PList _ | PTuple _ | PDict _ | PNdArray _ => true | _ => false end.

Hypothesis H_list : forall xs, Forall P xs -> P (PList xs).
Hypothesis H_tuple : forall xs, Forall P xs -> P (PTuple xs).
Hypothesis H_nd : forall xs, Forall P xs -> P (PNdArray xs).
Hypothesis H_dict : forall kvs, Forall (fun kv => P (snd kv)) kvs -> P (PDict kvs).
Hypothesis H_atom : forall v, is_container v = false -> P v.

Fixpoint pyval_ind' (v : pyval) : P v :=
  let elems := fix go (xs : list pyval) : Forall P xs :=
    match xs with
    | [] => Forall_nil P
    | x :: xs' => Forall_cons x (pyval_ind' x) (go xs')
    end in
  match v as v0 return P v0 with
  | PList xs => H_list xs (elems xs)
  | PTuple xs => H_tuple xs (elems xs)
  | PNdArray xs => H_nd xs (elems xs)
  | PDict kvs =>
      H_dict kvs
        ((fix go (kvs : list (string * pyval)) : Forall (fun kv => P (snd kv)) kvs :=
            match kvs with
            | [] => Forall_nil _
            | kv :: kvs' => Forall_cons kv (pyval_ind' (snd kv)) (go kvs')
            end) kvs)
  | v0 => H_atom v0 eq_refl
  end.

End PyvalInd.






Fixpoint nodupb (l : list string) : bool :=
  match l with
  | [] => true
  | x :: xs => negb (str_in x xs) && nodupb xs
  end.













(** Values the JSON encoder writes natively and [json.load] reads back
    unchanged (dicts excepted: their keys come back sorted). *)
Fixpoint json_native (v : pyval) : bool :=
  match v with
  | PStr _ | PNone | PBool _ | PInt _ | PFloat _ => true
  | PList xs => forallb json_native xs
  | _ => false
  end.

(** The keys of a label's node in the core aggregate. *)
Definition label_keys : list string :=
  ["posterior_samples"; "injection_data"; "version"; "meta_data"; "priors"; "config_file"].

(** The node of the label [l] (the [num]-th analysis) in the aggregate [d]
    holds its parameter names and sample rows, and an empty [config_file]
    when the analysis has no configuration file. *)
Definition label_ok (inp : MetaFile.inputs) (num : nat) (l : string)
  (d : list (string * pyval)) : Prop :=
  exists kvs cols rows,
    dict_get l d = Some (PDict kvs) /\ map fst kvs = label_keys /\
    getitem (MetaFile.samples inp) l = Ok cols /\
    MetaFile.transpose (map snd cols) = Ok rows /\
    dict_get "posterior_samples" kvs
      = Some (PDict [("parameter_names", PList (map PStr (map fst cols)));
                     ("samples", MetaFile.rows_value rows)]) /\
    (nth_error (MetaFile.config inp) num = Some PNone ->
     dict_get "config_file" kvs = Some (PDict [])).

(** A record of the aggregate as the spec describes it: label, parameter
    names in order, sample rows, and whether a weights column is present. *)
Definition expected_record (inp : MetaFile.inputs) (l : string)
  : result (string * list pyval * list pyval * bool) :=
  let* cols := getitem (MetaFile.samples inp) l in
  let* rows := MetaFile.transpose (map snd cols) in
  Ok (l, map PStr (map fst cols), map (fun r => PList (map PFloat r)) rows,
      str_in "weights" (map fst cols)).

(** The records [PESummary._grab_data_from_dictionary] returns. *)
Definition grabbed_records (g : PESummary.grabbed)
  : list (string * list pyval * list pyval * bool) :=
  map (fun x => match x with
                | (l, (ps, (ss, w))) =>
                    (l, ps, ss, match w with Some _ => true | None => false end)
                end)
      (combine (PESummary.g_labels g)
         (combine (PESummary.g_parameters g)
            (combine (PESummary.g_samples g) (map snd (PESummary.g_weights g))))).

(* ------------------------------------------------------------------ *)
(** ** Example inputs *)







(** Two analyses [a] and [b] with the same PSD data. *)
Definition softlink_example : pyval :=
  PDict [("a", PDict [("psd", PList [PFloat (FNum 1 0); PFloat (FNum 2 0)])]);
         ("b", PDict [("psd", PList [PFloat (FNum 1 0); PFloat (FNum 2 0)])])].



(** A single analysis labelled [l], with a [weights] column, no
    configuration file and one injection value per parameter. *)
Definition json_example_inputs (l : string) : MetaFile.inputs :=
  {| MetaFile.samples :=
       [(l, [("mass_1", [FNum 10 0; FNum 12 0]); ("weights", [FNum 5 (-1); FNum 25 (-2)])])];
     MetaFile.labels := [l];
     MetaFile.config := [PNone];
     MetaFile.injection_data := [(l, [("mass_1", PNone); ("weights", PNone)])];
     MetaFile.file_versions := [(l, PStr "v1")];
     MetaFile.file_kwargs := [(l, PDict [])];
     MetaFile.priors := [];
     MetaFile.package_information := [] |}.

(** The aggregate built for [json_example_inputs l], and its JSON round trip. *)
Definition json_example_dict (l : string) : pyval :=
  match MetaFile._make_dictionary (json_example_inputs l) [] with
  | Ok a => a | Err _ => PNone end.

Definition json_example_loaded (l : string) : pyval :=
  match json_roundtrip (json_example_dict l) with Ok a => a | Err _ => PNone end.

(* ================================================================== *)
(** * Properties *)

(** ** General facts about the embedding *)

Lemma bind_Ok {A B} (r : result A) (k : A -> result B) (b : B) :
  bind r k = Ok b -> exists a, r = Ok a /\ k a = Ok b.
Proof. destruct r as [a|e]; simpl; [eauto | discriminate]. Qed.

Ltac inv_bind H :=
  let a := fresh "a" in
  let Ha := fresh "Ha" in
  let Hk := fresh "Hk" in
  apply bind_Ok in H; destruct H as [a [Ha Hk]].

Lemma mapM_Forall2 {A B} (f : A -> result B) (l : list A) (ys : list B) :
  mapM f l = Ok ys -> Forall2 (fun x y => f x = Ok y) l ys.
Proof.
  revert ys; induction l as [|x l IH]; intros ys H; simpl in H.
  - injection H as <-. constructor.
  - inv_bind H. inv_bind Hk. injection Hk0 as <-. constructor; auto.
Qed.

Lemma dict_get_set_eq {A} (k : string) (v : A) (l : list (string * A)) :
  dict_get k (dict_set k v l) = Some v.
Proof.
  induction l as [|[k' v'] l IH]; simpl.
  - rewrite String.eqb_refl. reflexivity.
  - destruct (String.eqb k k') eqn:E; simpl.
    + apply String.eqb_eq in E; subst. rewrite String.eqb_refl. reflexivity.
    + rewrite E. exact IH.
Qed.

Lemma dict_get_set_neq {A} (k k' : string) (v : A) (l : list (string * A)) :
  k <> k' -> dict_get k' (dict_set k v l) = dict_get k' l.
Proof.
  intros Hne. induction l as [|[k0 v0] l IH]; simpl.
  - destruct (String.eqb k' k) eqn:E; [apply String.eqb_eq in E; congruence | reflexivity].
  - destruct (String.eqb k k0) eqn:E; simpl.
    + apply String.eqb_eq in E; subst.
      destruct (String.eqb k' k0) eqn:E2; [apply String.eqb_eq in E2; congruence | reflexivity].
    + destruct (String.eqb k' k0); [reflexivity | exact IH].
Qed.


(** ** C9: booleans in the JSON codec *)



(** ** C8: what [save_to_json] leaves on disk *)



(** ** C7: the derived columns of the LALInference reader *)

Section LALInferenceProofs.

Variable num : Type.
Variables np_exp np_arccos np_sign np_abs : num -> num.



End LALInferenceProofs.




(** ** C3: the [weights] column in the current-format reader *)











(** ** C10 and C6: format detection *)

(** C10: for any parsers, loaders and default loader, reading a path whose
    extension is [json] and whose contents are not valid JSON raises
    [JSONDecodeError] out of the first detection predicate
    ([is_bilby_json_file] loads the file before its [try]); the default
    loader is never reached. *)
Theorem core_read_invalid_json (json_parse hdf5_parse : string -> option pyval)
  (deepdish_installed : bool) (R : Type)
  (bilby_load pesummary_load pesummary_deprecated_load : string -> result R)
  (default_load : string -> R) (fs : filesystem) (path bytes : string) :
  Read.extension_from_path path = "json" ->
  dict_get path fs = Some bytes ->
  json_parse bytes = None ->
  Read.core_read json_parse hdf5_parse deepdish_installed R bilby_load pesummary_load
    pesummary_deprecated_load default_load fs path = Err JSONDecodeError.
Proof.
  intros Hext Hfs Hparse.
  unfold Read.core_read, Read.read. rewrite Hext. simpl.
  unfold Read.is_bilby_json_file, Read.json_load, Read.open_file.
  rewrite Hfs. simpl. rewrite Hparse. reflexivity.
Qed.

Lemma core_read_invalid_json_witness :
  Read.extension_from_path "result.json" = "json" /\
  dict_get "result.json" [("result.json", "{not json")] = Some "{not json" /\
  (fun _ : string => @None pyval) "{not json" = None /\
  Read.core_read (fun _ => None) (fun _ => None) true unit
    (fun _ => Ok tt) (fun _ => Ok tt) (fun _ => Ok tt) (fun _ => tt)
    [("result.json", "{not json")] "result.json" = Err JSONDecodeError.
Proof.
  split; [reflexivity|]. split; [reflexivity|]. split; [reflexivity|].
  apply (core_read_invalid_json (fun _ => None) (fun _ => None) true unit
           (fun _ => Ok tt) (fun _ => Ok tt) (fun _ => Ok tt) (fun _ => tt)
           [("result.json", "{not json")] "result.json" "{not json");
    reflexivity.
Defined.

(** C6: for an [h5] path whose contents are not an HDF5 file, the bilby
    predicate catches the failed load and answers [False], but the next
    predicate, [is_pesummary_hdf5_file], opens the file with [h5py.File]
    outside any [try], so [read] raises [OSError] instead of using the
    default loader. *)
Theorem core_read_invalid_hdf5 (json_parse hdf5_parse : string -> option pyval)
  (R : Type) (bilby_load pesummary_load pesummary_deprecated_load : string -> result R)
  (default_load : string -> R) (fs : filesystem) (path bytes : string) :
  Read.extension_from_path path = "h5" ->
  dict_get path fs = Some bytes ->
  hdf5_parse bytes = None ->
  Read.is_bilby_hdf5_file hdf5_parse true fs path = Ok false /\
  Read.core_read json_parse hdf5_parse true R bilby_load pesummary_load
    pesummary_deprecated_load default_load fs path = Err OSError.
Proof.
  intros Hext Hfs Hparse.
  assert (Hb : Read.is_bilby_hdf5_file hdf5_parse true fs path = Ok false).
  { unfold Read.is_bilby_hdf5_file, Read.h5py_File, Read.open_file.
    rewrite Hfs. simpl. rewrite Hparse. reflexivity. }
  split; [exact Hb|].
  unfold Read.core_read, Read.read, Read.CORE_HDF5_LOAD. rewrite Hext.
  cbn [str_in String.eqb Ascii.eqb Bool.eqb orb negb Read._read].
  rewrite Hb. cbn [bind].
  unfold Read.is_pesummary_hdf5_file, Read._is_pesummary_hdf5_file,
    Read.h5py_File, Read.open_file.
  rewrite Hfs. cbn [bind]. rewrite Hparse. reflexivity.
Qed.

Lemma core_read_invalid_hdf5_witness :
  Read.extension_from_path "result.h5" = "h5" /\
  dict_get "result.h5" [("result.h5", "not hdf5")] = Some "not hdf5" /\
  (fun _ : string => @None pyval) "not hdf5" = None /\
  Read.is_bilby_hdf5_file (fun _ => None) true [("result.h5", "not hdf5")] "result.h5"
    = Ok false /\
  Read.core_read (fun _ => None) (fun _ => None) true unit
    (fun _ => Ok tt) (fun _ => Ok tt) (fun _ => Ok tt) (fun _ => tt)
    [("result.h5", "not hdf5")] "result.h5" = Err OSError.
Proof.
  split; [reflexivity|]. split; [reflexivity|]. split; [reflexivity|].
  apply (core_read_invalid_hdf5 (fun _ => None) (fun _ => None) unit
           (fun _ => Ok tt) (fun _ => Ok tt) (fun _ => Ok tt) (fun _ => tt)
           [("result.h5", "not hdf5")] "result.h5" "not hdf5");
    reflexivity.
Defined.

(** ** C2 and C4: the GW aggregator *)














Lemma bind_Ok_r {A} (r : result A) : bind r (fun x => Ok x) = r.
Proof. destruct r; reflexivity. Qed.














(* ------------------------------------------------------------------ *)
(** ** C5: the soft-link de-duplication pass *)

Module SoftlinkFacts.
Import Softlinks.








Lemma str_in_In x l : str_in x l = true <-> In x l.
Proof.
  induction l as [|y l IH]; simpl; [split; [discriminate|contradiction]|].
  rewrite orb_true_iff, IH, String.eqb_eq. split; intros [H|H]; auto.
Qed.

Lemma nodupb_NoDup l : nodupb l = true -> NoDup l.
Proof.
  induction l as [|x l IH]; simpl; [constructor|].
  intros H. apply andb_true_iff in H as [H1 H2]. constructor; [|auto].
  intros Hin. apply str_in_In in Hin. rewrite Hin in H1. discriminate.
Qed.

Lemma dict_get_In {A} k (kvs : list (string * A)) v :
  dict_get k kvs = Some v -> In (k, v) kvs.
Proof.
  induction kvs as [|[k' v'] kvs IH]; simpl; [discriminate|].
  destruct (String.eqb_spec k k'); [intros H; injection H as ->; subst; auto|auto].
Qed.

Lemma dict_get_In_nodup {A} k (kvs : list (string * A)) v :
  NoDup (map fst kvs) -> In (k, v) kvs -> dict_get k kvs = Some v.
Proof.
  induction kvs as [|[k' v'] kvs IH]; simpl; [contradiction|].
  intros HN Hin. inversion HN as [|? ? Hk HN']; subst.
  destruct Hin as [Heq|Hin].
  - injection Heq as -> ->. rewrite String.eqb_refl. reflexivity.
  - destruct (String.eqb_spec k k'); [|auto]. subst.
    exfalso. apply Hk. apply (in_map fst) in Hin. exact Hin.
Qed.
























Lemma NoDup_In_fst_eq {A} (l : list (string * A)) k a b :
  NoDup (map fst l) -> In (k, a) l -> In (k, b) l -> a = b.
Proof.
  induction l as [|[k' c] l IH]; simpl; [contradiction|].
  intros HN Ha Hb. apply NoDup_cons_iff in HN as [Hk HN].
  destruct Ha as [Ha|Ha], Hb as [Hb|Hb].
  - congruence.
  - injection Ha as -> ->. exfalso. apply Hk. apply (in_map fst) in Hb. exact Hb.
  - injection Hb as -> ->. exfalso. apply Hk. apply (in_map fst) in Ha. exact Ha.
  - exact (IH HN Ha Hb).
Qed.


Section Groups.

Variable FL : list (string * pyval).





End Groups.



Section Pairs.

Variable set_order : list string -> list string.
Hypothesis Hperm : forall l, Permutation (set_order l) l.






End Pairs.

































Lemma append_inj_l (a b c : string) : (a ++ b) = (a ++ c) -> b = c.
Proof. induction a as [|x a IH]; simpl; [auto|]. intros H. injection H. exact IH. Qed.







(** The pass on [softlink_example] writes one PSD dataset and one soft link
    to it. *)
Lemma softlink_example_linked :
  exists t', _create_softlinks (fun l => l) softlink_example = Ok t' /\
    write_hdf5 t' []
    = Ok [("a", H5Group);
          ("a/psd", H5Dataset (HNumArr [PFloat (FNum 1 0); PFloat (FNum 2 0)]));
          ("b", H5Group); ("b/psd", H5SoftLink "/a/psd")].
Proof. eexists. split; [reflexivity | vm_compute; reflexivity]. Qed.


End SoftlinkFacts.

(* ------------------------------------------------------------------ *)
(** ** C1: the JSON round trip of the aggregate *)

Module JsonRoundTrip.

Lemma to_json_native v : forall f j,
  json_native v = true -> to_json f v = Ok j -> of_json j = v.
Proof.
  induction v as [xs HF|xs HF|xs HF|kvs HF|v Hv] using pyval_ind'; intros [|f] j Hn Hj;
    try discriminate.
  - cbn [to_json] in Hj. apply bind_Ok in Hj as [js [Hm Hj]]. injection Hj as <-.
    cbn [of_json]. f_equal. apply mapM_Forall2 in Hm. simpl in Hn.
    revert js Hm. induction HF as [|x xs Hx HF IH]; intros js Hm; inversion Hm; subst;
      [reflexivity|]. simpl in Hn. apply andb_true_iff in Hn as [Hn1 Hn2].
    simpl. rewrite (Hx _ _ Hn1 H1), (IH Hn2 _ H3). reflexivity.
  - destruct v; simpl in Hn, Hv; try discriminate; cbn [to_json] in Hj;
      injection Hj as <-; reflexivity.
Qed.

Lemma insert_item_perm {A} (kv : string * A) l : Permutation (insert_item kv l) (kv :: l).
Proof.
  induction l as [|kv' l IH]; simpl; [reflexivity|].
  destruct (String.leb (fst kv) (fst kv')); [reflexivity|].
  rewrite IH. apply perm_swap.
Qed.

Lemma sort_items_perm {A} (l : list (string * A)) : Permutation (sort_items l) l.
Proof.
  induction l as [|kv l IH]; simpl; [reflexivity|].
  rewrite insert_item_perm. constructor. exact IH.
Qed.

Lemma to_json_dict f kvs j :
  to_json (S f) (PDict kvs) = Ok j ->
  exists js, j = JObj js /\
    Forall2 (fun kv kj => fst kj = fst kv /\ to_json f (snd kv) = Ok (snd kj)) (sort_items kvs) js.
Proof.
  cbn [to_json]. intros H. apply bind_Ok in H as [js [Hm H]]. injection H as <-.
  exists js. split; [reflexivity|]. apply mapM_Forall2 in Hm.
  induction Hm as [|kv kj l l' Hx _ IH]; constructor; [|exact IH].
  apply bind_Ok in Hx as [j [Hj Hx]]. injection Hx as <-. auto.
Qed.

Lemma Forall2_In_l {A B} (R : A -> B -> Prop) l1 l2 x :
  Forall2 R l1 l2 -> In x l1 -> exists y, In y l2 /\ R x y.
Proof.
  induction 1 as [|a b l1 l2 Hab _ IH]; [contradiction|].
  intros [<-|Hin]; [exists b; simpl; auto|].
  destruct (IH Hin) as [y [Hy Hr]]. exists y. simpl. auto.
Qed.

Lemma Forall2_map_fst {A B} (l1 : list (string * A)) (l2 : list (string * B)) P :
  Forall2 (fun kv kj => fst kj = fst kv /\ P kv kj) l1 l2 -> map fst l2 = map fst l1.
Proof. induction 1 as [|a b l1 l2 [Hab _] _ IH]; simpl; congruence. Qed.

(** The dict read back from a written dict: same keys (sorted), each value
    written and read back. *)
Lemma roundtrip_dict_get f kvs js k v :
  NoDup (map fst kvs) ->
  Forall2 (fun kv kj => fst kj = fst kv /\ to_json f (snd kv) = Ok (snd kj)) (sort_items kvs) js ->
  dict_get k kvs = Some v ->
  exists jv, to_json f v = Ok jv /\
    dict_get k (map (fun kv => (fst kv, of_json (snd kv))) js) = Some (of_json jv).
Proof.
  intros HN HF Hg.
  apply SoftlinkFacts.dict_get_In in Hg.
  assert (Hs : In (k, v) (sort_items kvs)) by (eapply Permutation_in; [symmetry; apply sort_items_perm|exact Hg]).
  destruct (Forall2_In_l _ _ _ _ HF Hs) as [[k' jv] [Hin [Hk Hj]]]. simpl in Hk, Hj. subst k'.
  exists jv. split; [exact Hj|].
  apply SoftlinkFacts.dict_get_In_nodup.
  - rewrite map_map. simpl.
    replace (map (fun x : string * json => fst x) js) with (map fst js) by reflexivity.
    rewrite (Forall2_map_fst _ _ _ HF).
    apply (Permutation_NoDup (l := map fst kvs)); [|exact HN].
    apply Permutation_map. symmetry. apply sort_items_perm.
  - apply in_map_iff. exists (k, jv). auto.
Qed.


Lemma dict_set_keys_in {A} k (v : A) (l : list (string * A)) :
  In k (map fst l) -> map fst (dict_set k v l) = map fst l.
Proof.
  induction l as [|[k' v'] l IH]; simpl; [contradiction|].
  intros H. destruct (String.eqb_spec k k'); simpl; [congruence|].
  f_equal. apply IH. destruct H; [congruence|assumption].
Qed.

Lemma dict_set_keys_new {A} k (v : A) (l : list (string * A)) :
  ~ In k (map fst l) -> map fst (dict_set k v l) = (map fst l ++ [k])%list.
Proof.
  induction l as [|[k' v'] l IH]; simpl; [reflexivity|].
  intros H. destruct (String.eqb_spec k k'); [exfalso; auto|]. simpl.
  f_equal. apply IH. auto.
Qed.

Lemma dict_get_Some_in {A} k (l : list (string * A)) v :
  dict_get k l = Some v -> In k (map fst l).
Proof.
  intros H. apply SoftlinkFacts.dict_get_In in H.
  apply (in_map fst) in H. exact H.
Qed.

Lemma set_field_inv (P : list (string * pyval) -> Prop) (d0 d d1 : list (string * pyval))
  l key v :
  ((exists kvs, dict_get l d = Some (PDict kvs) /\ map fst kvs = label_keys /\ P kvs) /\
   (forall l', l' <> l -> dict_get l' d = dict_get l' d0) /\ map fst d = map fst d0) ->
  MetaFile.set_field d l key v = Ok d1 -> In key label_keys ->
  (forall kvs, P kvs -> P (dict_set key v kvs)) ->
  ((exists kvs, dict_get l d1 = Some (PDict kvs) /\ map fst kvs = label_keys /\ P kvs) /\
   (forall l', l' <> l -> dict_get l' d1 = dict_get l' d0) /\ map fst d1 = map fst d0).
Proof.
  intros [[kvs [Hg [Hkeys Hp]]] [Ho Hk0]] H Hk HP.
  unfold MetaFile.set_field, getitem in H. rewrite Hg in H. cbn [bind] in H.
  injection H as <-. split; [|split].
  - exists (dict_set key v kvs). split; [apply dict_get_set_eq|].
    split; [rewrite dict_set_keys_in; [exact Hkeys|rewrite Hkeys; exact Hk]|].
    apply HP, Hp.
  - intros l' Hne. rewrite dict_get_set_neq by congruence. apply Ho, Hne.
  - rewrite dict_set_keys_in; [exact Hk0|]. eapply dict_get_Some_in; exact Hg.
Qed.

Lemma add_label_spec inp ini num l d d' :
  MetaFile.add_label inp ini num l d = Ok d' ->
  dict_get l d = Some MetaFile.empty_label_node ->
  label_ok inp num l d' /\ (forall l', l' <> l -> dict_get l' d' = dict_get l' d) /\
  map fst d' = map fst d.
Proof.
  unfold MetaFile.add_label. intros H He. cbv zeta in H.
  apply bind_Ok in H as [cols [Hcols H]].
  apply bind_Ok in H as [rows [Hrows H]].
  apply bind_Ok in H as [d2 [H2 H]].
  apply bind_Ok in H as [inj [_ H]].
  apply bind_Ok in H as [injv [_ H]].
  apply bind_Ok in H as [d3 [H3 H]].
  apply bind_Ok in H as [ver [_ H]].
  apply bind_Ok in H as [d4 [H4 H]].
  apply bind_Ok in H as [kw [_ H]].
  apply bind_Ok in H as [d5 [H5 H]].
  apply bind_Ok in H as [cfg [Hcfg H]].
  apply bind_Ok in H as [d6 [H6 H]].
  set (X := PDict [("parameter_names", PList (map PStr (map fst cols)));
                   ("samples", MetaFile.rows_value rows)]) in *.
  set (C := nth_error (MetaFile.config inp) num = Some PNone).
  set (P := fun kvs : list (string * pyval) =>
              dict_get "posterior_samples" kvs = Some X /\
              (C -> dict_get "config_file" kvs = Some (PDict []))).
  assert (I2 : (exists kvs, dict_get l d2 = Some (PDict kvs) /\ map fst kvs = label_keys /\ P kvs) /\
               (forall l', l' <> l -> dict_get l' d2 = dict_get l' d) /\ map fst d2 = map fst d).
  { unfold MetaFile.set_field, getitem in H2. rewrite He in H2. cbn [bind MetaFile.empty_label_node] in H2.
    injection H2 as <-. split; [|split].
    - eexists. split; [apply dict_get_set_eq|]. split; [reflexivity|].
      split; [reflexivity|intros _; reflexivity].
    - intros l' Hne. apply dict_get_set_neq. congruence.
    - apply dict_set_keys_in. eapply dict_get_Some_in; exact He. }
  assert (Hother : forall key v kvs, key <> "posterior_samples" -> key <> "config_file" ->
                     P kvs -> P (dict_set key v kvs)).
  { intros key v kvs H1 H2' [Hp Hc]. split.
    - rewrite dict_get_set_neq by exact H1. exact Hp.
    - intros HC. rewrite dict_get_set_neq by exact H2'. exact (Hc HC). }
  eapply set_field_inv in H3; [|exact I2|simpl; tauto|intros kvs; apply Hother; discriminate].
  eapply set_field_inv in H4; [|exact H3|simpl; tauto|intros kvs; apply Hother; discriminate].
  eapply set_field_inv in H5; [|exact H4|simpl; tauto|intros kvs; apply Hother; discriminate].
  assert (I6 : (exists kvs, dict_get l d6 = Some (PDict kvs) /\ map fst kvs = label_keys /\ P kvs) /\
               (forall l', l' <> l -> dict_get l' d6 = dict_get l' d) /\ map fst d6 = map fst d).
  { destruct cfg; try (injection H6 as <-; exact H5);
      (eapply set_field_inv; [exact H5|exact H6|simpl; tauto|]);
      intros kvs0 [Hp Hc]; (split; [rewrite dict_get_set_neq by discriminate; exact Hp|]);
      intros HC; exfalso; unfold nth_err in Hcfg; rewrite HC in Hcfg; discriminate. }
  clear I2 H2 H3 H4 H5 H6.
  assert (I' : (exists kvs, dict_get l d' = Some (PDict kvs) /\ map fst kvs = label_keys /\ P kvs) /\
               (forall l', l' <> l -> dict_get l' d' = dict_get l' d) /\ map fst d' = map fst d).
  { revert d6 H I6. generalize (MetaFile.priors inp) as keys.
    induction keys as [|[key per] keys IH]; intros d6 H I6.
    - injection H as <-. exact I6.
    - cbv beta iota in H. destruct (dict_get l per) as [p|].
      + apply bind_Ok in H as [pr [_ H]]. apply bind_Ok in H as [d7 [H7 H]].
        apply (IH d7 H).
        eapply set_field_inv; [exact I6|exact H7|simpl; tauto|].
        intros kvs. apply Hother; discriminate.
      + exact (IH d6 H I6). }
  destruct I' as [[kvs [Hg [Hkeys [Hp Hc]]]] [Ho Hk]].
  split; [|split; [exact Ho|exact Hk]].
  exists kvs, cols, rows. repeat split; assumption.
Qed.

Lemma label_ok_ext inp num l (d d' : list (string * pyval)) :
  dict_get l d' = dict_get l d -> label_ok inp num l d -> label_ok inp num l d'.
Proof.
  intros E [kvs [cols [rows [Hg H]]]]. exists kvs, cols, rows. rewrite E. auto.
Qed.

Lemma add_labels_spec inp ini ls : forall num d d',
  MetaFile.add_labels inp ini num ls d = Ok d' -> NoDup ls ->
  (forall l, In l ls -> dict_get l d = Some MetaFile.empty_label_node) ->
  map fst d' = map fst d /\ (forall l', ~ In l' ls -> dict_get l' d' = dict_get l' d) /\
  (forall j l, nth_error ls j = Some l -> label_ok inp (num + j) l d').
Proof.
  induction ls as [|l ls IH]; intros num d d' H HN He; simpl in H.
  - injection H as <-. split; [reflexivity|]. split; [reflexivity|].
    intros [|j] l H; discriminate.
  - apply bind_Ok in H as [d2 [H2 H]].
    apply NoDup_cons_iff in HN as [Hl HN].
    destruct (add_label_spec _ _ _ _ _ _ H2 (He l (or_introl eq_refl))) as [Hok [Ho Hk]].
    destruct (IH (S num) d2 d' H HN) as [Hk' [Ho' Hok']].
    { intros l' Hin. rewrite Ho by (intros ->; contradiction). apply He. right. exact Hin. }
    split; [congruence|]. split.
    + intros l' Hn. rewrite Ho' by (intros Hin; apply Hn; right; exact Hin).
      apply Ho. intros ->. apply Hn. left. reflexivity.
    + intros [|j] l' Hj; simpl in Hj.
      * injection Hj as <-. rewrite Nat.add_0_r.
        apply (label_ok_ext _ _ _ d2); [apply Ho'; exact Hl|exact Hok].
      * rewrite <- Nat.add_succ_comm. exact (Hok' j l' Hj).
Qed.

Lemma init_nodes ls : forall acc : list (string * pyval),
  NoDup ls -> (forall l, In l ls -> ~ In l (map fst acc)) ->
  map fst (fold_left (fun d l => dict_set l MetaFile.empty_label_node d) ls acc)
  = (map fst acc ++ ls)%list /\
  (forall l, In l ls ->
     dict_get l (fold_left (fun d l => dict_set l MetaFile.empty_label_node d) ls acc)
     = Some MetaFile.empty_label_node) /\
  (forall l, ~ In l ls ->
     dict_get l (fold_left (fun d l => dict_set l MetaFile.empty_label_node d) ls acc)
     = dict_get l acc).
Proof.
  induction ls as [|x ls IH]; intros acc HN Hn; simpl.
  - rewrite app_nil_r. split; [reflexivity|]. split; [contradiction|reflexivity].
  - apply NoDup_cons_iff in HN as [Hx HN].
    destruct (IH (dict_set x MetaFile.empty_label_node acc) HN) as [H1 [H2 H3]].
    { intros l Hin. rewrite dict_set_keys_new by (apply Hn; left; reflexivity).
      rewrite in_app_iff. intros [Hin'|[<-|[]]]; [exact (Hn l (or_intror Hin) Hin')|contradiction]. }
    rewrite H1, dict_set_keys_new by (apply Hn; left; reflexivity). rewrite <- app_assoc.
    split; [reflexivity|]. split.
    + intros l [<-|Hin]; [|exact (H2 l Hin)].
      rewrite H3 by exact Hx. apply dict_get_set_eq.
    + intros l Hl. rewrite H3 by (intros Hin; apply Hl; right; exact Hin).
      apply dict_get_set_neq. intros ->. apply Hl. left. reflexivity.
Qed.

Lemma make_dictionary_spec inp ini agg :
  MetaFile._make_dictionary inp ini = Ok agg ->
  NoDup (MetaFile.labels inp) -> ~ In "version" (MetaFile.labels inp) ->
  exists d, agg = PDict d /\ map fst d = (MetaFile.labels inp ++ ["version"])%list /\
    forall j l, nth_error (MetaFile.labels inp) j = Some l -> label_ok inp j l d.
Proof.
  unfold MetaFile._make_dictionary. intros H HN Hv. cbv zeta in H.
  apply bind_Ok in H as [d [Hd H]]. injection H as <-. exists d. split; [reflexivity|].
  destruct (init_nodes (MetaFile.labels inp) [] HN (fun _ _ H => H)) as [K0 [G0 _]].
  set (d0 := fold_left _ _ _) in *.
  destruct (add_labels_spec _ _ _ _ _ _ Hd HN) as [K [_ Hok]].
  { intros l Hin. rewrite dict_get_set_neq by (intros E; subst l; contradiction). apply G0, Hin. }
  split; [|exact Hok].
  rewrite K, dict_set_keys_new, K0; [reflexivity|]. rewrite K0. exact Hv.
Qed.

Lemma native_strs l : json_native (PList (map PStr l)) = true.
Proof. induction l as [|x l IH]; [reflexivity|exact IH]. Qed.

Lemma native_rows rows : json_native (MetaFile.rows_value rows) = true.
Proof.
  unfold MetaFile.rows_value. induction rows as [|r rows IH]; [reflexivity|].
  change (json_native (PList (map PFloat r)) && json_native (PList (map (fun r => PList (map PFloat r)) rows)) = true).
  rewrite IH, andb_true_r. clear. induction r as [|x r IH]; [reflexivity|exact IH].
Qed.

Lemma str_in_perm x (l l' : list string) : Permutation l l' -> str_in x l = str_in x l'.
Proof.
  intros HP. destruct (str_in x l) eqn:E1, (str_in x l') eqn:E2; try reflexivity.
  - apply SoftlinkFacts.str_in_In in E1. apply (Permutation_in _ HP) in E1.
    apply SoftlinkFacts.str_in_In in E1. congruence.
  - apply SoftlinkFacts.str_in_In in E2. apply (Permutation_in _ (Permutation_sym HP)) in E2.
    apply SoftlinkFacts.str_in_In in E2. congruence.
Qed.

Lemma py_index_strs x l :
  match PESummary.py_index (PStr x) (map PStr l) with Some _ => true | None => false end
  = str_in x l.
Proof.
  induction l as [|y l IH]; [reflexivity|]. cbn [map PESummary.py_index str_in].
  change (py_eq (PStr x) (PStr y)) with (String.eqb x y).
  destruct (String.eqb x y); [reflexivity|]. simpl.
  destruct (PESummary.py_index (PStr x) (map PStr l)); exact IH.
Qed.

Lemma py_index_bytes_strs x l : PESummary.py_index (PBytes x) (map PStr l) = None.
Proof. induction l as [|y l IH]; [reflexivity|]. simpl. rewrite IH. reflexivity. Qed.

Lemma decode_strs l ps : PESummary.decode_parameters (map PStr l) = Ok ps -> ps = map PStr l.
Proof.
  unfold PESummary.decode_parameters, nth_err. destruct l as [|x l]; simpl; [discriminate|].
  intros H. injection H as <-. reflexivity.
Qed.

Lemma label_keys_nodup : NoDup label_keys.
Proof. apply SoftlinkFacts.nodupb_NoDup. reflexivity. Qed.

Lemma grab_label_rt f d js inp num l ld :
  NoDup (map fst d) ->
  Forall2 (fun kv kj => fst kj = fst kv /\ to_json f (snd kv) = Ok (snd kj)) (sort_items d) js ->
  label_ok inp num l d ->
  PESummary.grab_label (PDict (map (fun kv => (fst kv, of_json (snd kv))) js)) l = Ok ld ->
  exists cols rows,
    getitem (MetaFile.samples inp) l = Ok cols /\ MetaFile.transpose (map snd cols) = Ok rows /\
    PESummary.ld_parameters ld = map PStr (map fst cols) /\
    PESummary.ld_samples ld = map (fun r => PList (map PFloat r)) rows /\
    match PESummary.ld_weights ld with Some _ => true | None => false end
      = str_in "weights" (map fst cols) /\
    PESummary.ld_injection ld <> None /\
    (nth_error (MetaFile.config inp) num = Some PNone -> PESummary.ld_config ld = PDict []).
Proof.
  intros HN HF [kvs [cols [rows [Hg [Hkeys [Hcols [Hrows [Hps Hcfg]]]]]]]] H.
  exists cols, rows. split; [exact Hcols|]. split; [exact Hrows|].
  destruct (roundtrip_dict_get _ _ _ _ _ HN HF Hg) as [jn [Hjn HgD]].
  destruct f as [|f]; [discriminate Hjn|].
  destruct (to_json_dict _ _ _ Hjn) as [jsn [-> HFn]].
  assert (HNn : NoDup (map fst kvs)) by (rewrite Hkeys; exact label_keys_nodup).
  set (Kn := map (fun kv => (fst kv, of_json (snd kv))) jsn).
  assert (HK : Permutation (map fst Kn) label_keys).
  { unfold Kn. rewrite map_map. simpl.
    replace (map (fun x : string * json => fst x) jsn) with (map fst jsn) by reflexivity.
    rewrite (Forall2_map_fst _ _ _ HFn), <- Hkeys. apply Permutation_map. apply sort_items_perm. }
  destruct (roundtrip_dict_get _ _ _ _ _ HNn HFn Hps) as [jp [Hjp HgP]].
  destruct f as [|f]; [discriminate Hjp|].
  destruct (to_json_dict _ _ _ Hjp) as [jsp [-> HFp]].
  set (pn := PList (map PStr (map fst cols))) in *.
  set (sv := MetaFile.rows_value rows) in *.
  change (sort_items [("parameter_names", pn); ("samples", sv)])
    with [("parameter_names", pn); ("samples", sv)] in HFp.
  inversion HFp as [|? [k1 j1] ? jsp' [Hk1 Hj1] HF2]; subst.
  inversion HF2 as [|? [k2 j2] ? jsp'' [Hk2 Hj2] HF3]; subst.
  inversion HF3; subst. simpl in Hk1, Hj1, Hk2, Hj2. subst k1 k2.
  apply to_json_native in Hj1; [|apply native_strs].
  apply to_json_native in Hj2; [|apply native_rows].
  cbn [of_json map fst snd] in HgP. rewrite Hj1, Hj2 in HgP.
  unfold PESummary.grab_label, PESummary.load_recursively, py_getitem, getitem in H.
  rewrite HgD in H. cbn [bind of_json] in H. fold Kn in H.
  apply bind_Ok in H as [pp [Hpp H]].
  unfold PESummary.grab_posterior in Hpp. cbn [py_keys bind] in Hpp.
  rewrite (str_in_perm _ _ _ HK) in Hpp. cbn in Hpp.
  unfold getitem at 1 in Hpp. fold Kn in HgP. rewrite HgP in Hpp. cbn [bind] in Hpp.
  cbn in Hpp. apply bind_Ok in Hpp as [ps' [Hd Hpp]]. apply decode_strs in Hd. subst ps'.
  injection Hpp as <-.
  cbn [py_keys bind] in H.
  rewrite !(str_in_perm _ _ _ HK) in H.
  assert (Ei : str_in "injection_data" label_keys = true) by reflexivity.
  assert (Ec : str_in "config_file" label_keys = true) by reflexivity.
  rewrite Ei, Ec in H.
  apply bind_Ok in H as [inj [Hinj H]].
  apply bind_Ok in H as [config [Hconfig H]].
  apply bind_Ok in H as [kwargs [_ H]].
  apply bind_Ok in H as [w [Hw H]].
  apply bind_Ok in H as [version [_ H]].
  apply bind_Ok in H as [priors [_ H]].
  injection H as <-. cbn [PESummary.ld_parameters PESummary.ld_samples PESummary.ld_weights
                          PESummary.ld_injection PESummary.ld_config].
  split; [reflexivity|]. split; [reflexivity|]. split; [|split].
  - rewrite <- py_index_strs.
    destruct (PESummary.py_index (PStr "weights") (map PStr (map fst cols))).
    + apply bind_Ok in Hw as [w' [_ Hw]]. injection Hw as <-. reflexivity.
    + rewrite py_index_bytes_strs in Hw. injection Hw as <-. reflexivity.
  - apply bind_Ok in Hinj as [a [_ Hinj]]. apply bind_Ok in Hinj as [b [_ Hinj]].
    apply bind_Ok in Hinj as [c [_ Hinj]]. apply bind_Ok in Hinj as [e [_ Hinj]].
    injection Hinj as <-. discriminate.
  - intros HC. specialize (Hcfg HC).
    destruct (roundtrip_dict_get _ _ _ _ _ HNn HFn Hcfg) as [jc [Hjc HgC]].
    cbn [to_json sort_items fold_right mapM bind] in Hjc. injection Hjc as <-.
    cbn [py_getitem getitem] in Hconfig. fold Kn in HgC. rewrite HgC in Hconfig.
    injection Hconfig as <-. reflexivity.
Qed.


Lemma remove_first_perm x l : forall m,
  ~ In x m -> Permutation l (m ++ [x])%list -> Permutation (PESummary.remove_first x l) m.
Proof.
  induction l as [|y l IH]; intros m Hx HP.
  - apply Permutation_length in HP. rewrite length_app in HP. simpl in HP. lia.
  - simpl. destruct (String.eqb_spec x y) as [<-|Hne].
    + apply (Permutation_cons_inv (a := x)). rewrite HP. symmetry. apply Permutation_cons_append.
    + assert (Hy : In y m).
      { assert (H : In y (m ++ [x])%list) by (rewrite <- HP; left; reflexivity).
        apply in_app_iff in H as [H|[H|[]]]; [exact H|congruence]. }
      apply in_split in Hy as [m1 [m2 ->]].
      apply Permutation_cons_app. apply IH.
      * intros H. apply Hx. apply in_app_iff in H as [H|H]; apply in_app_iff; [left|right; right]; exact H.
      * rewrite <- app_assoc in HP. simpl in HP. apply Permutation_cons_app_inv in HP.
        rewrite <- app_assoc. exact HP.
Qed.

Lemma mapM_perm {A B} (f : A -> result B) l1 l2 :
  Permutation l1 l2 -> forall r1, mapM f l1 = Ok r1 ->
  exists r2, mapM f l2 = Ok r2 /\ Permutation r1 r2.
Proof.
  induction 1 as [|x l1 l2 HP IH|x y l|l1 l2 l3 H12 IH12 H23 IH23]; intros r1 H.
  - exists r1. split; [exact H|reflexivity].
  - simpl in H. apply bind_Ok in H as [a [Ha H]]. apply bind_Ok in H as [r [Hr H]].
    injection H as <-. destruct (IH r Hr) as [r2 [Hr2 HP2]].
    exists (a :: r2). simpl. rewrite Ha, Hr2. split; [reflexivity|constructor; exact HP2].
  - simpl in H. apply bind_Ok in H as [a [Ha H]]. apply bind_Ok in H as [r [Hr H]].
    apply bind_Ok in Hr as [b [Hb Hr]]. apply bind_Ok in Hr as [r' [Hr' Hr]].
    injection H as <-. injection Hr as <-.
    exists (b :: a :: r'). simpl. rewrite Ha, Hb, Hr'. split; [reflexivity|apply perm_swap].
  - destruct (IH12 r1 H) as [r2 [H2 P2]]. destruct (IH23 r2 H2) as [r3 [H3 P3]].
    exists r3. split; [exact H3|]. rewrite P2. exact P3.
Qed.

Lemma map_snd_combine {A B C} (ks : list A) (vs : list B) (R : A -> B -> Prop) (G : B -> C) :
  Forall2 R ks vs -> map snd (combine ks (map G vs)) = map G vs.
Proof. induction 1; simpl; congruence. Qed.

Lemma records_mapM inp ls per :
  Forall2 (fun l ld => expected_record inp l
             = Ok (l, PESummary.ld_parameters ld, PESummary.ld_samples ld,
                   match PESummary.ld_weights ld with Some _ => true | None => false end)) ls per ->
  mapM (expected_record inp) ls
  = Ok (map (fun x => match x with
                      | (l, (ps, (ss, w))) =>
                          (l, ps, ss, match w with Some _ => true | None => false end)
                      end)
            (combine ls (combine (map PESummary.ld_parameters per)
                           (combine (map PESummary.ld_samples per)
                                    (map PESummary.ld_weights per))))).
Proof.
  induction 1 as [|l ld ls per Hl _ IH]; [reflexivity|].
  simpl. rewrite Hl, IH. reflexivity.
Qed.

Lemma dict_get_combine {A B} (R : string -> A -> Prop) (G : A -> B) (Q : B -> Prop)
  (ks : list string) (vs : list A) k :
  Forall2 R ks vs -> In k ks -> (forall v, R k v -> Q (G v)) ->
  exists v', dict_get k (combine ks (map G vs)) = Some v' /\ Q v'.
Proof.
  induction 1 as [|k' v ks vs Hr _ IH]; [contradiction|]. intros Hin HQ. simpl.
  destruct (String.eqb_spec k k') as [->|Hne].
  - exists (G v). split; [reflexivity|]. apply HQ, Hr.
  - destruct Hin as [->|Hin]; [congruence|]. exact (IH Hin HQ).
Qed.

Lemma json_roundtrip_inv o a :
  json_roundtrip o = Ok a -> exists j, to_json 1000 o = Ok j /\ a = of_json j.
Proof.
  unfold json_roundtrip, json_encode, recursion_limit. intros Hr.
  apply bind_Ok in Hr as [j [Hj Hr]]. injection Hr as <-. eauto.
Qed.

(** C1 (amended): for distinct analysis labels none of which is
    [version], whenever the aggregate is built, written as JSON and read
    back by [PESummary._grab_data_from_dictionary], the records read back
    are, up to order (the encoder sorts the keys), exactly the records built
    from the inputs: each label with its parameter names in stored order,
    its sample rows with the same values, and a weights sequence exactly
    when a [weights] column was stored; every label comes back with
    injection data, and a label whose configuration was [None] comes back
    with an empty configuration dict. *)
Theorem json_roundtrip_records inp ini agg agg' g :
  NoDup (MetaFile.labels inp) -> ~ In "version" (MetaFile.labels inp) ->
  MetaFile._make_dictionary inp ini = Ok agg ->
  json_roundtrip agg = Ok agg' ->
  PESummary._grab_data_from_dictionary agg' = Ok g ->
  (exists E, mapM (expected_record inp) (MetaFile.labels inp) = Ok E /\
             Permutation (grabbed_records g) E) /\
  length (PESummary.g_injection g) = length (MetaFile.labels inp) /\
  (forall num l, nth_error (MetaFile.labels inp) num = Some l ->
     nth_error (MetaFile.config inp) num = Some PNone ->
     dict_get l (PESummary.g_config g) = Some (PDict [])).
Proof.
  intros HN Hv Hm Hr Hg.
  destruct (make_dictionary_spec _ _ _ Hm HN Hv) as [d [-> [Hkeys Hok]]].
  destruct (json_roundtrip_inv _ _ Hr) as [j [Hj ->]].
  destruct (to_json_dict _ _ _ Hj) as [js [-> HF]].
  assert (HNd : NoDup (map fst d)).
  { rewrite Hkeys. apply (Permutation_NoDup (l := "version" :: MetaFile.labels inp)).
    - apply Permutation_cons_append.
    - constructor; assumption. }
  set (D' := map (fun kv => (fst kv, of_json (snd kv))) js).
  assert (HK : Permutation (map fst D') (MetaFile.labels inp ++ ["version"])%list).
  { unfold D'. rewrite map_map. simpl.
    replace (map (fun x : string * json => fst x) js) with (map fst js) by reflexivity.
    rewrite (Forall2_map_fst _ _ _ HF), <- Hkeys. apply Permutation_map. apply sort_items_perm. }
  unfold PESummary._grab_data_from_dictionary in Hg. cbn [of_json py_keys bind] in Hg.
  fold D' in Hg.
  assert (Hver : str_in "version" (map fst D') = true).
  { apply SoftlinkFacts.str_in_In. eapply Permutation_in; [symmetry; exact HK|].
    apply in_app_iff. right. left. reflexivity. }
  rewrite Hver in Hg. cbv zeta in Hg.
  set (labels' := PESummary.remove_first "version" (map fst D')) in Hg.
  assert (HL : Permutation labels' (MetaFile.labels inp)) by (apply remove_first_perm; assumption).
  apply bind_Ok in Hg as [per [Hper Hg]]. apply bind_Ok in Hg as [prior [_ Hg]].
  injection Hg as <-. apply mapM_Forall2 in Hper.
  assert (Hidx : forall l, In l labels' -> exists j, nth_error (MetaFile.labels inp) j = Some l).
  { intros l Hl. apply In_nth_error. eapply Permutation_in; [exact HL|exact Hl]. }
  split; [|split].
  - assert (Hrec : Forall2 (fun l ld => expected_record inp l
             = Ok (l, PESummary.ld_parameters ld, PESummary.ld_samples ld,
                   match PESummary.ld_weights ld with Some _ => true | None => false end)) labels' per).
    { clear HL. induction Hper as [|l ld ls per' Hl _ IH]; constructor.
      - destruct (Hidx l (or_introl eq_refl)) as [jl Hjl].
        destruct (grab_label_rt _ _ _ _ _ _ _ HNd HF (Hok _ _ Hjl) Hl)
          as [cols [rows [Hc [Hrw [Hp [Hs [Hw _]]]]]]].
        unfold expected_record. rewrite Hc. cbn [bind]. rewrite Hrw. cbn [bind].
        rewrite Hp, Hs, Hw. reflexivity.
      - apply IH. intros l' Hl'. apply Hidx. right. exact Hl'. }
    pose proof (records_mapM _ _ _ Hrec) as E.
    destruct (mapM_perm _ _ _ HL _ E) as [E2 [HE2 HP]].
    exists E2. split; [exact HE2|].
    unfold grabbed_records. cbn [PESummary.g_labels PESummary.g_parameters
                                 PESummary.g_samples PESummary.g_weights].
    rewrite (map_snd_combine _ _ _ _ Hper). exact HP.
  - cbn [PESummary.g_injection]. rewrite <- (Permutation_length HL).
    clear HL. induction Hper as [|l ld ls per' Hl _ IH]; [reflexivity|].
    destruct (Hidx l (or_introl eq_refl)) as [jl Hjl].
    destruct (grab_label_rt _ _ _ _ _ _ _ HNd HF (Hok _ _ Hjl) Hl)
      as [c0 [r0 [_ [_ [_ [_ [_ [Hi _]]]]]]]].
    cbn [flat_map]. destruct (PESummary.ld_injection ld) eqn:Ei; [|exfalso; apply Hi; reflexivity].
    simpl. f_equal. apply IH. intros l' Hl'. apply Hidx. right. exact Hl'.
  - intros num l Hl Hc. cbn [PESummary.g_config].
    assert (Hin : In l labels').
    { eapply Permutation_in; [symmetry; exact HL|]. eapply nth_error_In. exact Hl. }
    assert (HQ : forall ld, PESummary.grab_label (PDict D') l = Ok ld ->
                            PESummary.ld_config ld = PDict []).
    { intros ld Hld.
      destruct (grab_label_rt _ _ _ _ _ _ _ HNd HF (Hok _ _ Hl) Hld)
        as [c1 [r1 [_ [_ [_ [_ [_ [_ Hcf]]]]]]]].
      exact (Hcf Hc). }
    destruct (dict_get_combine _ PESummary.ld_config (fun c => c = PDict []) _ _ l Hper Hin HQ)
      as [v' [Hv' ->]].
    exact Hv'.
Qed.

Lemma json_roundtrip_records_witness :
  exists g,
    PESummary._grab_data_from_dictionary (json_example_loaded "a") = Ok g /\
    (exists E, mapM (expected_record (json_example_inputs "a"))
                    (MetaFile.labels (json_example_inputs "a")) = Ok E /\
               Permutation (grabbed_records g) E) /\
    length (PESummary.g_injection g) = length (MetaFile.labels (json_example_inputs "a")) /\
    (forall num l, nth_error (MetaFile.labels (json_example_inputs "a")) num = Some l ->
       nth_error (MetaFile.config (json_example_inputs "a")) num = Some PNone ->
       dict_get l (PESummary.g_config g) = Some (PDict [])).
Proof.
  destruct (PESummary._grab_data_from_dictionary (json_example_loaded "a")) as [g|e] eqn:Eg.
  2: vm_compute in Eg; discriminate Eg.
  exists g. split; [reflexivity|].
  apply (json_roundtrip_records (json_example_inputs "a") [] (json_example_dict "a")
           (json_example_loaded "a") g).
  - simpl. constructor; [simpl; tauto|constructor].
  - simpl. intros [H|[]]. discriminate H.
  - vm_compute. reflexivity.
  - vm_compute. reflexivity.
  - exact Eg.
Defined.

(** The label [version] is written like any other, but the reader takes the
    top-level [version] key for the file's version block and drops it, so
    the analysis is lost. *)
Lemma json_roundtrip_drops_version_label :
  MetaFile.labels (json_example_inputs "version") = ["version"] /\
  MetaFile._make_dictionary (json_example_inputs "version") [] = Ok (json_example_dict "version") /\
  json_roundtrip (json_example_dict "version") = Ok (json_example_loaded "version") /\
  exists g, PESummary._grab_data_from_dictionary (json_example_loaded "version") = Ok g /\
            PESummary.g_labels g = [] /\ grabbed_records g = [].
Proof.
  split; [reflexivity|]. split; [vm_compute; reflexivity|]. split; [vm_compute; reflexivity|].
  destruct (PESummary._grab_data_from_dictionary (json_example_loaded "version")) as [g|e] eqn:Eg.
  2: vm_compute in Eg; discriminate Eg.
  exists g. split; [reflexivity|].
  vm_compute in Eg. injection Eg as <-. split; reflexivity.
Qed.

End JsonRoundTrip.
